(** * Reaction handlers of the livestream backend (webapp/go/reaction_handler.go)

    A shallow embedding of [getReactionsHandler], [postReactionHandler],
    [fillReactionResponse], [fillReactionResponses] and [fillUserResponses].

    Go's [int64] and [int] are [Z]; Go maps are [gmap]s read with the zero
    value as default; a database transaction is a record of answers, one per
    statement the handlers send; every call on the transaction is appended to
    a trace, so that the statements a handler issues can be counted. *)

From Stdlib Require Import Ascii String.
From stdpp Require Import base option list gmap strings pretty sorting.

Local Open Scope string_scope.
Local Open Scope list_scope.
Local Open Scope Z_scope.

(** ** Go errors *)

(** The values of Go's [error] that occur in this file. *)
Inductive error : Type :=
  | ErrNoRows                                  (* sql.ErrNoRows *)
  | ErrDriver (msg : string)                   (* any other error of database/sql or the driver *)
  | ErrEmptyIn                                 (* sqlx.In on an empty slice *)
  | ErrOther (msg : string)                    (* an error returned by a collaborator *)
  | HTTPError (code : Z) (message : string).   (* echo.NewHTTPError(code, message) *)

(** [err.Error()] *)
Definition Error (e : error) : string :=
  match e with
  | ErrNoRows => "sql: no rows in result set"
  | ErrDriver msg => msg
  | ErrEmptyIn => "empty slice passed to 'in' query"
  | ErrOther msg => msg
  | HTTPError code message => "code=" +:+ pretty code +:+ ", message=" +:+ message
  end.

Definition StatusOK : Z := 200.
Definition StatusCreated : Z := 201.
Definition StatusBadRequest : Z := 400.
Definition StatusNotFound : Z := 404.
Definition StatusInternalServerError : Z := 500.

(** ** Row models and response objects *)

Record ReactionModel : Type := mkReactionModel {
  ReactionModel_ID : Z;
  ReactionModel_EmojiName : string;
  ReactionModel_UserID : Z;
  ReactionModel_LivestreamID : Z;
  ReactionModel_CreatedAt : Z
}.

Record PostReactionRequest : Type := mkPostReactionRequest {
  PostReactionRequest_EmojiName : string
}.

(** Modelled from the spec: the declaration of [UserModel] is in another file
    of the package.  The spec's user record has an identifier, a login name, a
    display name and a free-text description; these are the fields that
    [fillUserResponses] reads. *)
Record UserModel : Type := mkUserModel {
  UserModel_ID : Z;
  UserModel_Name : string;
  UserModel_DisplayName : string;
  UserModel_Description : string
}.

(** Modelled from the spec: the declaration of [ThemeModel] is in another file
    of the package.  A theme belongs to one user and carries a dark-mode flag. *)
Record ThemeModel : Type := mkThemeModel {
  ThemeModel_ID : Z;
  ThemeModel_UserID : Z;
  ThemeModel_DarkMode : bool
}.

(** The anonymous struct scanned by the icon-hash query. *)
Record IconHashRow : Type := mkIconHashRow {
  IconHashRow_UserID : Z;
  IconHashRow_Hash : string
}.

(** Modelled from the spec: the declarations of [Theme] and [User] are in
    another file of the package.  The fields are those of the composite
    literal in [fillUserResponses]. *)
Record Theme : Type := mkTheme {
  Theme_ID : Z;
  Theme_DarkMode : bool
}.

Record User : Type := mkUser {
  User_ID : Z;
  User_Name : string;
  User_DisplayName : string;
  User_Description : string;
  User_Theme : Theme;
  User_IconHash : string
}.

(** Go's zero values, which a map read yields for an absent key. *)
Definition zeroUserModel : UserModel := mkUserModel 0 "" "" "".
Definition zeroThemeModel : ThemeModel := mkThemeModel 0 0 false.
Definition zeroTheme : Theme := mkTheme 0 false.
Definition zeroUser : User := mkUser 0 "" "" "" zeroTheme "".

(** [m[k]] on a Go map. *)
Definition go_index {V : Type} (zero : V) (m : gmap Z V) (k : Z) : V :=
  default zero (m !! k).

(** [for _, x := range xs { m[key x] = val x }] starting from an empty map. *)
Definition index_by {A V : Type} (key : A → Z) (val : A → V) (xs : list A) : gmap Z V :=
  foldl (λ m x, <[key x := val x]> m) ∅ xs.

(** ** Statements and the trace *)

(** The statements this file sends on a transaction.  [External] stands for a
    statement issued inside a collaborator (the user and livestream hydration
    routines of the other handler files). *)
Inductive Query : Type :=
  | SelectReactions (livestreamID : Z) (limit : option Z)
  | InsertReaction (r : ReactionModel)
  | GetUser (id : Z)
  | GetLivestream (id : Z)
  | SelectUsersIn (ids : list Z)
  | SelectThemesIn (ids : list Z)
  | SelectIconHashesIn (ids : list Z)
  | SelectLivestreamsIn (ids : list Z)
  | External (sql : string).

Inductive Event : Type :=
  | EvBegin (opened : bool)      (* dbConn.BeginTxx, and whether it gave a transaction *)
  | EvQuery (q : Query)          (* a statement sent on the transaction *)
  | EvCommit (ok : bool)         (* tx.Commit, and whether it returned nil *)
  | EvRollback.                  (* tx.Rollback *)

(** ** Computations: a trace, and a value, an error or a panic *)

Inductive result (A : Type) : Type :=
  | Ok (a : A)
  | Err (e : error)
  | Panic (msg : string).
Arguments Ok {A} a.
Arguments Err {A} e.
Arguments Panic {A} msg.

Definition M (A : Type) : Type := list Event → result A * list Event.

Definition ret {A : Type} (a : A) : M A := λ t, (Ok a, t).

Definition bind {A B : Type} (m : M A) (k : A → M B) : M B :=
  λ t, match m t with
       | (Ok a, t') => k a t'
       | (Err e, t') => (Err e, t')
       | (Panic msg, t') => (Panic msg, t')
       end.

Definition fail {A : Type} (e : error) : M A := λ t, (Err e, t).
Definition panic {A : Type} (msg : string) : M A := λ t, (Panic msg, t).
Definition emit (ev : Event) : M unit := λ t, (Ok tt, t ++ [ev]).

(** [v, err := f(); if err != nil { return err }] for a call that leaves no trace. *)
Definition lift {A : Type} (r : error + A) : M A :=
  match r with
  | inl e => fail e
  | inr a => ret a
  end.

(** [if err != nil { return wrap(err) }] around a computation. *)
Definition or_return {A : Type} (m : M A) (wrap : error → error) : M A :=
  λ t, match m t with
       | (Err e, t') => (Err (wrap e), t')
       | r => r
       end.

(** [defer cleanup()]: the cleanup runs when the body is left, whether by a
    return, by an error or by a panic; its own result is dropped. *)
Definition defer {A : Type} (cleanup : M unit) (body : M A) : M A :=
  λ t, let '(r, t') := body t in (r, snd (cleanup t')).

Notation "'let*' x ':=' m 'in' k" := (bind m (λ x, k))
  (at level 10, x pattern, m at level 100, k at level 200).

Definition run {A : Type} (m : M A) : result A * list Event := m [].
Definition value {A : Type} (m : M A) : result A := fst (run m).
Definition trace {A : Type} (m : M A) : list Event := snd (run m).

(** The statements of a trace, in order. *)
Definition queries (t : list Event) : list Query :=
  omap (λ ev, match ev with EvQuery q => Some q | _ => None end) t.

(** ** sqlx.In *)

(** [sqlx.In(query, ids)] with one slice argument: an empty slice is an error,
    otherwise the placeholder is expanded and the elements of the slice become
    the parameters of the statement. *)
Definition sqlx_In (ids : list Z) : error + list Z :=
  match ids with
  | [] => inl ErrEmptyIn
  | _ => inr ids
  end.

(** ** strconv.Atoi *)

Definition digit (a : ascii) : option Z :=
  let n := Z.of_nat (nat_of_ascii a) in
  if bool_decide (48 ≤ n ≤ 57) then Some (n - 48) else None.

Fixpoint digits (s : string) (acc : Z) : option Z :=
  match s with
  | EmptyString => Some acc
  | String a s' =>
      match digit a with
      | Some d => digits s' (10 * acc + d)
      | None => None
      end
  end.

(** Base 10, an optional sign, at least one digit, and the value in the range
    of a 64-bit [int]; anything else is an error. *)
Definition Atoi (s : string) : option Z :=
  let unsigned (neg : bool) (s' : string) : option Z :=
    match s' with
    | EmptyString => None
    | _ =>
        match digits s' 0 with
        | Some n =>
            let v := if neg then - n else n in
            if bool_decide (- 2 ^ 63 ≤ v < 2 ^ 63) then Some v else None
        | None => None
        end
    end in
  match s with
  | String "-" s' => unsigned true s'
  | String "+" s' => unsigned false s'
  | _ => unsigned false s
  end.

(** ** encoding/json: decoding the request body *)

#[local] Set Warnings "-register-all".

(** A JSON value; numbers are kept as their literal. *)
Inductive json : Type :=
  | JNull
  | JBool (b : bool)
  | JNumber (literal : string)
  | JString (s : string)
  | JArray (items : list json)
  | JObject (members : list (string * json)).

Definition lower (a : ascii) : ascii :=
  let n := nat_of_ascii a in
  if bool_decide (65 ≤ n ≤ 90)%nat then ascii_of_nat (n + 32) else a.

Fixpoint fold_case (s : string) : string :=
  match s with
  | EmptyString => EmptyString
  | String a s' => String (lower a) (fold_case s')
  end.

(** One member of the object, decoded into the struct: a key that matches the
    tag [emoji_name], exactly or up to case, sets the field from a string,
    leaves it alone on [null] and is a type error otherwise; other keys are
    skipped.  The first type error is kept while decoding goes on. *)
Definition decode_member (st : option error * PostReactionRequest) (kv : string * json)
  : option error * PostReactionRequest :=
  let '(err, req) := st in
  let '(k, v) := kv in
  if bool_decide (fold_case k = "emoji_name") then
    match v with
    | JString s => (err, mkPostReactionRequest s)
    | JNull => (err, req)
    | _ =>
        (match err with
         | Some e => Some e
         | None => Some (ErrOther "json: cannot unmarshal into Go struct field PostReactionRequest.emoji_name of type string")
         end, req)
    end
  else (err, req).

(** [json.NewDecoder(body).Decode(&req)] for [var req *PostReactionRequest].
    The body is [None] when it does not start with a JSON value.  The literal
    [null] leaves the pointer nil and is no error; an object allocates the
    struct; any other value is a type error. *)
Definition Decode (body : option json) : error + option PostReactionRequest :=
  match body with
  | None => inl (ErrOther "json: syntax error")
  | Some JNull => inr None
  | Some (JObject members) =>
      match foldl decode_member (None, mkPostReactionRequest "") members with
      | (Some e, _) => inl e
      | (None, req) => inr (Some req)
      end
  | Some _ => inl (ErrOther "json: cannot unmarshal into Go value of type main.PostReactionRequest")
  end.

(** ** The request, as the handlers read it *)

Record Context : Type := mkContext {
  Param_livestream_id : string;     (* c.Param("livestream_id") *)
  QueryParam_limit : string;        (* c.QueryParam("limit"); empty when the parameter is absent *)
  Session_user_id : option Z;       (* sess.Values[defaultUserIDKey], when it holds an int64 *)
  Body : option json;               (* c.Request().Body *)
  Now : Z                           (* time.Now().Unix() *)
}.

(** A collaborator of another handler file: the statements it issues, and its
    result. *)
Definition Collab (A : Type) : Type := list string * (error + A).

Definition call {A : Type} (c : Collab A) : M A :=
  λ t, (match snd c with inl e => Err e | inr a => Ok a end,
        t ++ map (λ sql, EvQuery (External sql)) (fst c)).

(** A statement sent on the transaction, with the answer of the store. *)
Definition send {A : Type} (q : Query) (answer : error + A) : M A :=
  let* _ := emit (EvQuery q) in lift answer.

Section Handlers.

(** The livestream row and response types are declared with the livestream
    handlers; of a response this file reads the identifier only. *)
Context {LivestreamModel Livestream : Type}.
Context (Livestream_ID : Livestream → Z) (zeroLivestream : Livestream).

(** The constant [fallbackImageHash] is declared with the user handlers. *)
Context (fallbackImageHash : string).

Record Reaction : Type := mkReaction {
  Reaction_ID : Z;
  Reaction_EmojiName : string;
  Reaction_User : User;
  Reaction_Livestream : Livestream;
  Reaction_CreatedAt : Z
}.

Definition zeroReaction : Reaction := mkReaction 0 "" zeroUser zeroLivestream 0.

(** What [c.JSON(code, v)] writes. *)
Inductive Payload : Type :=
  | OneReaction (r : Reaction)
  | Reactions (rs : list Reaction).

Inductive Response : Type :=
  | JSON (code : Z) (payload : Payload).

(** The transaction, as the answers of the store to the statements of this
    file.  A select gives rows or an error; a get gives one row, or
    [ErrNoRows], or another error; the insert gives a result whose
    [LastInsertId] may fail in turn. *)
Record Tx : Type := mkTx {
  tx_selectReactions : Z → option Z → error + list ReactionModel;
  tx_insertReaction : ReactionModel → error + (error + Z);
  tx_getUser : Z → error + UserModel;
  tx_getLivestream : Z → error + LivestreamModel;
  tx_selectUsersIn : list Z → error + list UserModel;
  tx_selectThemesIn : list Z → error + list ThemeModel;
  tx_selectIconHashesIn : list Z → error + list IconHashRow;
  tx_selectLivestreamsIn : list Z → error + list LivestreamModel;
  tx_commit : option error
}.

(** [dbConn]: what [BeginTxx] gives. *)
Record DB : Type := mkDB {
  db_begin : error + Tx
}.

(** The collaborators: session verification, and the hydration routines of
    the user and livestream handlers. *)
Context (verifyUserSession : Context → option error).
Context (fillUserResponse : Tx → UserModel → Collab User).
Context (fillLivestreamResponse : Tx → LivestreamModel → Collab Livestream).
Context (fillLivestreamResponses : Tx → list LivestreamModel → Collab (list Livestream)).

Definition BeginTxx (dbConn : DB) : M Tx :=
  match db_begin dbConn with
  | inl e => let* _ := emit (EvBegin false) in fail e
  | inr tx => let* _ := emit (EvBegin true) in ret tx
  end.

Definition Commit (tx : Tx) : M unit :=
  match tx_commit tx with
  | Some e => let* _ := emit (EvCommit false) in fail e
  | None => emit (EvCommit true)
  end.

Definition Rollback (tx : Tx) : M unit := emit EvRollback.

(** *** fillUserResponses *)

Definition user_response (userMap : gmap Z UserModel) (themeMap : gmap Z ThemeModel)
    (hashMap : gmap Z string) (id : Z) : User :=
  let iconHash :=
    match hashMap !! id with
    | Some h => h
    | None => fallbackImageHash
    end in
  {| User_ID := UserModel_ID (go_index zeroUserModel userMap id);
     User_Name := UserModel_Name (go_index zeroUserModel userMap id);
     User_DisplayName := UserModel_DisplayName (go_index zeroUserModel userMap id);
     User_Description := UserModel_Description (go_index zeroUserModel userMap id);
     User_Theme :=
       {| Theme_ID := ThemeModel_ID (go_index zeroThemeModel themeMap id);
          Theme_DarkMode := ThemeModel_DarkMode (go_index zeroThemeModel themeMap id) |};
     User_IconHash := iconHash |}.

Definition fillUserResponses (tx : Tx) (userIDs : list Z) : M (gmap Z User) :=
  let* params := lift (sqlx_In userIDs) in
  let* userModels := send (SelectUsersIn params) (tx_selectUsersIn tx params) in
  let userMap := index_by UserModel_ID id userModels in
  let* params := lift (sqlx_In userIDs) in
  let* themeModels := send (SelectThemesIn params) (tx_selectThemesIn tx params) in
  let themeMap := index_by ThemeModel_UserID id themeModels in
  let* params := lift (sqlx_In userIDs) in
  let* iconHashes := send (SelectIconHashesIn params) (tx_selectIconHashesIn tx params) in
  let hashMap := index_by IconHashRow_UserID IconHashRow_Hash iconHashes in
  ret (index_by id (user_response userMap themeMap hashMap) userIDs).

(** *** fillReactionResponse *)

Definition fillReactionResponse (tx : Tx) (reactionModel : ReactionModel) : M Reaction :=
  let* userModel :=
    send (GetUser (ReactionModel_UserID reactionModel))
         (tx_getUser tx (ReactionModel_UserID reactionModel)) in
  let* user := call (fillUserResponse tx userModel) in
  let* livestreamModel :=
    send (GetLivestream (ReactionModel_LivestreamID reactionModel))
         (tx_getLivestream tx (ReactionModel_LivestreamID reactionModel)) in
  let* livestream := call (fillLivestreamResponse tx livestreamModel) in
  ret {| Reaction_ID := ReactionModel_ID reactionModel;
         Reaction_EmojiName := ReactionModel_EmojiName reactionModel;
         Reaction_User := user;
         Reaction_Livestream := livestream;
         Reaction_CreatedAt := ReactionModel_CreatedAt reactionModel |}.

(** *** fillReactionResponses *)

(** [ids := make([]int64, n); for _, r := range rs { ids = append(ids, key r) }] *)
Definition collect_ids (key : ReactionModel → Z) (reactionModels : list ReactionModel) : list Z :=
  foldl (λ ids reaction, ids ++ [key reaction])
        (replicate (length reactionModels) 0) reactionModels.

Definition reaction_response (userResps : gmap Z User) (livestreamMap : gmap Z Livestream)
    (reactionModel : ReactionModel) : Reaction :=
  {| Reaction_ID := ReactionModel_ID reactionModel;
     Reaction_EmojiName := ReactionModel_EmojiName reactionModel;
     Reaction_User := go_index zeroUser userResps (ReactionModel_UserID reactionModel);
     Reaction_Livestream :=
       go_index zeroLivestream livestreamMap (ReactionModel_LivestreamID reactionModel);
     Reaction_CreatedAt := ReactionModel_CreatedAt reactionModel |}.

Definition fillReactionResponses (tx : Tx) (reactionModels : list ReactionModel)
  : M (list Reaction) :=
  if bool_decide (length reactionModels = 0%nat) then ret []
  else
    let userIDs := collect_ids ReactionModel_UserID reactionModels in
    let* userResps := fillUserResponses tx userIDs in
    let livestreamIDs := collect_ids ReactionModel_LivestreamID reactionModels in
    let* params := lift (sqlx_In livestreamIDs) in
    let* livestreamModels :=
      send (SelectLivestreamsIn params) (tx_selectLivestreamsIn tx params) in
    let* livestreamResps := call (fillLivestreamResponses tx livestreamModels) in
    let livestreamMap := index_by Livestream_ID id livestreamResps in
    (* reactions := make([]Reaction, n); for i := range reactionModels { reactions[i] = ... } *)
    ret (foldl (λ reactions '(i, reactionModel),
                  <[i := reaction_response userResps livestreamMap reactionModel]> reactions)
               (replicate (length reactionModels) zeroReaction)
               (imap pair reactionModels)).

(** *** getReactionsHandler *)

Definition getReactionsHandler (dbConn : DB) (c : Context) : M Response :=
  let* _ := match verifyUserSession c with Some err => fail err | None => ret tt end in
  match Atoi (Param_livestream_id c) with
  | None => fail (HTTPError StatusBadRequest "livestream_id in path must be integer")
  | Some livestreamID =>
    let* tx := or_return (BeginTxx dbConn)
      (λ err, HTTPError StatusInternalServerError ("failed to begin transaction: " +:+ Error err)) in
    defer (Rollback tx) (
      let* limit :=
        if bool_decide (QueryParam_limit c ≠ "") then
          match Atoi (QueryParam_limit c) with
          | None => fail (HTTPError StatusBadRequest "limit query parameter must be integer")
          | Some limit => ret (Some limit)
          end
        else ret None in
      let* reactionModels :=
        or_return (send (SelectReactions livestreamID limit)
                        (tx_selectReactions tx livestreamID limit))
          (λ _, HTTPError StatusNotFound "failed to get reactions") in
      let* reactions := or_return (fillReactionResponses tx reactionModels)
        (λ err, HTTPError StatusInternalServerError ("failed to fill reactions: " +:+ Error err)) in
      let* _ := or_return (Commit tx)
        (λ err, HTTPError StatusInternalServerError ("failed to commit: " +:+ Error err)) in
      ret (JSON StatusOK (Reactions reactions)))
  end.

(** *** postReactionHandler *)

Definition postReactionHandler (dbConn : DB) (c : Context) : M Response :=
  match Atoi (Param_livestream_id c) with
  | None => fail (HTTPError StatusBadRequest "livestream_id in path must be integer")
  | Some livestreamID =>
    let* _ := match verifyUserSession c with Some err => fail err | None => ret tt end in
    let* userID :=
      match Session_user_id c with
      | Some userID => ret userID
      | None => panic "interface conversion: interface {} is not int64"
      end in
    let* req := or_return (lift (Decode (Body c)))
      (λ _, HTTPError StatusBadRequest "failed to decode the request body as json") in
    let* tx := or_return (BeginTxx dbConn)
      (λ err, HTTPError StatusInternalServerError ("failed to begin transaction: " +:+ Error err)) in
    defer (Rollback tx) (
      let* emojiName :=
        match req with
        | Some r => ret (PostReactionRequest_EmojiName r)
        | None => panic "runtime error: invalid memory address or nil pointer dereference"
        end in
      let reactionModel :=
        {| ReactionModel_ID := 0;
           ReactionModel_EmojiName := emojiName;
           ReactionModel_UserID := userID;
           ReactionModel_LivestreamID := livestreamID;
           ReactionModel_CreatedAt := Now c |} in
      let* result :=
        or_return (send (InsertReaction reactionModel) (tx_insertReaction tx reactionModel))
          (λ err, HTTPError StatusInternalServerError ("failed to insert reaction: " +:+ Error err)) in
      let* reactionID := or_return (lift result)
        (λ err, HTTPError StatusInternalServerError
                  ("failed to get last inserted reaction id: " +:+ Error err)) in
      let reactionModel :=
        {| ReactionModel_ID := reactionID;
           ReactionModel_EmojiName := emojiName;
           ReactionModel_UserID := userID;
           ReactionModel_LivestreamID := livestreamID;
           ReactionModel_CreatedAt := Now c |} in
      let* reaction := or_return (fillReactionResponse tx reactionModel)
        (λ err, HTTPError StatusInternalServerError ("failed to fill reaction: " +:+ Error err)) in
      let* _ := or_return (Commit tx)
        (λ err, HTTPError StatusInternalServerError ("failed to commit: " +:+ Error err)) in
      ret (JSON StatusCreated (OneReaction reaction)))
  end.

End Handlers.

Arguments mkReaction {Livestream}.
Arguments JSON {Livestream}.
Arguments OneReaction {Livestream}.
Arguments Reactions {Livestream}.

(** ** Observations on runs, used to state the properties *)

(** The four bulk statements of the batch assembler. *)
Inductive Bulk : Type := Users | Themes | IconHashes | Livestreams.

#[local] Instance Bulk_eq_dec : EqDecision Bulk.
Proof. solve_decision. Defined.

Definition bulk_kind (q : Query) : option Bulk :=
  match q with
  | SelectUsersIn _ => Some Users
  | SelectThemesIn _ => Some Themes
  | SelectIconHashesIn _ => Some IconHashes
  | SelectLivestreamsIn _ => Some Livestreams
  | _ => None
  end.

(** How many statements of a kind a trace holds. *)
Definition issued (b : Bulk) (t : list Event) : nat :=
  length (filter (λ q, bulk_kind q = Some b) (queries t)).

(** The three statements of [fillUserResponses], in the order they are sent. *)
Definition user_statements (ids : list Z) : list Event :=
  [EvQuery (SelectUsersIn ids); EvQuery (SelectThemesIn ids); EvQuery (SelectIconHashesIn ids)].

(** The statements a collaborator issues, as events. *)
Definition external (sqls : list string) : list Event :=
  map (λ sql, EvQuery (External sql)) sqls.

(** An event of the body of a transaction: a statement or the commit. *)
Definition is_statement (ev : Event) : Prop :=
  match ev with
  | EvQuery _ | EvCommit _ => True
  | EvBegin _ | EvRollback => False
  end.

(** A computation that only adds statements and commits to the trace. *)
Definition within_tx {A : Type} (m : M A) : Prop :=
  ∀ t, ∃ t', snd (m t) = t ++ t' ∧ Forall is_statement t'.

(** The shape of the trace of a handler: nothing when the request is refused
    before [BeginTxx], a failed begin, or a begin, then statements and at most
    a commit, then the rollback. *)
Definition handler_trace (t : list Event) : Prop :=
  t = [] ∨ t = [EvBegin false]
  ∨ ∃ t', t = EvBegin true :: t' ++ [EvRollback] ∧ Forall is_statement t'.

(** The [limit] a request asks for, as the list handler reads it: none when
    the parameter is empty, the integer it parses to, or an invalid one. *)
Inductive Limit : Type :=
  | NoLimit
  | LimitOf (n : Z)
  | InvalidLimit.

Definition requested_limit (c : Context) : Limit :=
  if bool_decide (QueryParam_limit c ≠ "") then
    match Atoi (QueryParam_limit c) with
    | Some n => LimitOf n
    | None => InvalidLimit
    end
  else NoLimit.

(** The trace of one transaction: the begin, then statements, then at most
    one commit, then the rollback. *)
Definition one_transaction (t : list Event) : Prop :=
  ∃ (qs : list Query) (tail : list Event),
    t = EvBegin true :: (EvQuery <$> qs) ++ tail ++ [EvRollback]
    ∧ (tail = [] ∨ ∃ ok, tail = [EvCommit ok]).

(** The [limit] argument of the reactions statement for a requested limit. *)
Definition limit_argument (l : Limit) : option (option Z) :=
  match l with
  | NoLimit => Some None
  | LimitOf n => Some (Some n)
  | InvalidLimit => None
  end.

(** A statement issued inside a collaborator. *)
Definition is_external (q : Query) : bool :=
  match q with
  | External _ => true
  | _ => false
  end.

(** How many statements of a trace the handlers of this file send themselves. *)
Definition own_statements (t : list Event) : nat :=
  length (filter (λ q, is_external q = false) (queries t)).

(** [ids] is exactly the set of the identifiers [referenced]: nothing else,
    and nothing twice. *)
Definition distinct_ids_of (referenced ids : list Z) : Prop :=
  NoDup ids ∧ ∀ k, k ∈ ids ↔ k ∈ referenced.

Section Observations.
Context {LivestreamModel Livestream : Type}.
Context (Livestream_ID : Livestream → Z) (zeroLivestream : Livestream).
Context (fallbackImageHash : string).
Context (fillLivestreamResponses :
           @Tx LivestreamModel → list LivestreamModel → Collab (list Livestream)).

(** The user responses built from the rows of the three statements. *)
Definition user_responses (userModels : list UserModel) (themeModels : list ThemeModel)
    (iconHashes : list IconHashRow) (ids : list Z) : gmap Z User :=
  index_by id
    (user_response fallbackImageHash
       (index_by UserModel_ID id userModels)
       (index_by ThemeModel_UserID id themeModels)
       (index_by IconHashRow_UserID IconHashRow_Hash iconHashes))
    ids.

(** [u] is the user that the rows answered to the three user statements for
    [ids] give for the identifier [k]: the last user row and the last theme
    row with that key (zero values when there is none), and the hash of the
    last icon-hash row, or the fallback. *)
Definition resolved_user (tx : @Tx LivestreamModel) (ids : list Z) (k : Z) (u : User) : Prop :=
  ∃ userModels themeModels iconHashes,
    tx_selectUsersIn tx ids = inr userModels ∧
    tx_selectThemesIn tx ids = inr themeModels ∧
    tx_selectIconHashesIn tx ids = inr iconHashes ∧
    u = user_response fallbackImageHash
          (index_by UserModel_ID id userModels)
          (index_by ThemeModel_UserID id themeModels)
          (index_by IconHashRow_UserID IconHashRow_Hash iconHashes) k.

(** [l] is the livestream that the hydration of the rows answered to the
    livestream statement for [ids] gives for the identifier [k]. *)
Definition resolved_livestream (tx : @Tx LivestreamModel) (ids : list Z) (k : Z)
    (l : Livestream) : Prop :=
  ∃ livestreamModels livestreamResps,
    tx_selectLivestreamsIn tx ids = inr livestreamModels ∧
    snd (fillLivestreamResponses tx livestreamModels) = inr livestreamResps ∧
    l = go_index zeroLivestream (index_by Livestream_ID id livestreamResps) k.

End Observations.

(** ** A store in memory, to run the handlers on examples *)

Definition StatusUnauthorized : Z := 401.

Module Demo.

(** A livestream row and its response: identifier and title. *)
Record Stream : Type := mkStream {
  Stream_ID : Z;
  Stream_Title : string
}.

Record Store : Type := mkStore {
  users : list UserModel;
  themes : list ThemeModel;
  icon_hashes : list IconHashRow;
  livestreams : list Stream;
  reactions : list ReactionModel;
  next_reaction_id : Z
}.

(** The rows of a table whose key is among [ids], in storage order. *)
Definition rows_in {A : Type} (key : A → Z) (ids : list Z) (table : list A) : list A :=
  filter (λ row, key row ∈ ids) table.

(** [tx.GetContext]: the first matching row, or [ErrNoRows]. *)
Definition first_row {A : Type} (key : A → Z) (k : Z) (table : list A) : error + A :=
  match rows_in key [k] table with
  | row :: _ => inr row
  | [] => inl ErrNoRows
  end.

(** [ORDER BY created_at DESC] *)
Definition newer_first (a b : ReactionModel) : Prop :=
  ReactionModel_CreatedAt b ≤ ReactionModel_CreatedAt a.

#[local] Instance newer_first_dec : RelDecision newer_first.
Proof. intros a b. unfold newer_first. apply _. Defined.

(** The transaction on a store; [broken] tells which statements fail, and how. *)
Definition tx_of (s : Store) (broken : Query → option error) (commit : option error)
  : @Tx Stream :=
  let answer {A : Type} (q : Query) (rows : A) : error + A :=
    match broken q with
    | Some e => inl e
    | None => inr rows
    end in
  {| tx_selectReactions := λ livestreamID limit,
       let rows :=
         merge_sort newer_first
           (rows_in ReactionModel_LivestreamID [livestreamID] (reactions s)) in
       match limit with
       | None => answer (SelectReactions livestreamID limit) rows
       | Some n =>
           if bool_decide (n < 0) then inl (ErrDriver "Error 1064: syntax error near LIMIT")
           else answer (SelectReactions livestreamID limit) (take (Z.to_nat n) rows)
       end;
     tx_insertReaction := λ r, answer (InsertReaction r) (inr (next_reaction_id s));
     tx_getUser := λ k,
       match broken (GetUser k) with
       | Some e => inl e
       | None => first_row UserModel_ID k (users s)
       end;
     tx_getLivestream := λ k,
       match broken (GetLivestream k) with
       | Some e => inl e
       | None => first_row Stream_ID k (livestreams s)
       end;
     tx_selectUsersIn := λ ids, answer (SelectUsersIn ids) (rows_in UserModel_ID ids (users s));
     tx_selectThemesIn := λ ids,
       answer (SelectThemesIn ids) (rows_in ThemeModel_UserID ids (themes s));
     tx_selectIconHashesIn := λ ids,
       answer (SelectIconHashesIn ids) (rows_in IconHashRow_UserID ids (icon_hashes s));
     tx_selectLivestreamsIn := λ ids,
       answer (SelectLivestreamsIn ids) (rows_in Stream_ID ids (livestreams s));
     tx_commit := commit |}.

Definition healthy : Query → option error := λ _, None.

(** Collaborators for the examples. *)
Definition verifyUserSession (c : Context) : option error :=
  match Session_user_id c with
  | Some _ => None
  | None => Some (HTTPError StatusUnauthorized "unauthorized")
  end.

Definition fallbackImageHash : string := "d9f8294e9d895f81ce62e73dc7d5dff862a4fa40bd4e0fecf53f7526a8edcac0".

Definition fillUserResponse (tx : @Tx Stream) (m : UserModel) : Collab User :=
  (["SELECT * FROM themes WHERE user_id = ?";
    "SELECT ih.hash FROM icon_hashes AS ih JOIN icons AS i ON i.id = ih.icon_id WHERE i.user_id = ?"],
   inr {| User_ID := UserModel_ID m;
          User_Name := UserModel_Name m;
          User_DisplayName := UserModel_DisplayName m;
          User_Description := UserModel_Description m;
          User_Theme := zeroTheme;
          User_IconHash := fallbackImageHash |}).

Definition fillLivestreamResponse (tx : @Tx Stream) (m : Stream) : Collab Stream :=
  (["SELECT * FROM users WHERE id = ?"], inr m).

Definition fillLivestreamResponses (tx : @Tx Stream) (ms : list Stream) : Collab (list Stream) :=
  (["SELECT * FROM users WHERE id IN (?)"], inr ms).

Definition zeroStream : Stream := mkStream 0 "".

Definition store : Store :=
  {| users := [mkUserModel 5 "alice" "Alice" "streams"; mkUserModel 6 "bob" "Bob" "watches"];
     themes := [mkThemeModel 1 5 true; mkThemeModel 2 6 false];
     icon_hashes := [mkIconHashRow 6 "abc123"];
     livestreams := [mkStream 7 "launch"; mkStream 8 "replay"];
     reactions :=
       [mkReactionModel 1 ":tada:" 5 7 100; mkReactionModel 2 ":+1:" 6 7 101;
        mkReactionModel 3 ":tada:" 5 8 102];
     next_reaction_id := 4 |}.

Definition tx : @Tx Stream := tx_of store healthy None.
Definition dbConn : @DB Stream := mkDB (inr tx).

Definition request (livestream_id limit : string) (user : option Z) (body : option json) : Context :=
  {| Param_livestream_id := livestream_id;
     QueryParam_limit := limit;
     Session_user_id := user;
     Body := body;
     Now := 1700000000 |}.

(** A store on which the bulk reactions statement fails. *)
Definition reactions_down (q : Query) : option error :=
  match q with
  | SelectReactions _ _ => Some (ErrDriver "invalid connection")
  | _ => None
  end.

Definition fillUserResponses := @fillUserResponses Stream fallbackImageHash.
Definition fillReactionResponses :=
  @fillReactionResponses Stream Stream Stream_ID zeroStream fallbackImageHash fillLivestreamResponses.
Definition getReactionsHandler :=
  @getReactionsHandler Stream Stream Stream_ID zeroStream fallbackImageHash
    verifyUserSession fillLivestreamResponses.
Definition postReactionHandler :=
  @postReactionHandler Stream Stream verifyUserSession fillUserResponse fillLivestreamResponse.

(** The reactions of the store in another order, and what the batch assembler
    returns for them. *)
Definition shuffled : list ReactionModel :=
  [mkReactionModel 2 ":+1:" 6 7 101; mkReactionModel 1 ":tada:" 5 7 100;
   mkReactionModel 3 ":tada:" 5 8 102].

Definition shuffled_out : list (@Reaction Stream) :=
  Eval vm_compute in
    match value (fillReactionResponses tx shuffled) with
    | Ok out => out
    | _ => []
    end.

(** The user responses for the two users of the store. *)
Definition both_users : gmap Z User :=
  match value (fillUserResponses tx [5; 6]) with
  | Ok m => m
  | _ => ∅
  end.

Definition tada : option json := Some (JObject [("emoji_name", JString ":tada:")]).

(** A store on which the commit fails. *)
Definition dbConn_commit_fails : @DB Stream :=
  mkDB (inr (tx_of store healthy (Some (ErrDriver "commit failed")))).

Definition dbConn_reactions_down : @DB Stream :=
  mkDB (inr (tx_of store reactions_down None)).

End Demo.

(** ** More runs on the store in memory *)

Module Scenarios.

(** A server whose [BeginTxx] fails. *)
Definition dbConn_down : @DB Demo.Stream := mkDB (inl (ErrDriver "connection refused")).

(** A store on which the bulk themes statement fails. *)
Definition themes_down (q : Query) : option error :=
  match q with
  | SelectThemesIn _ => Some (ErrDriver "invalid connection")
  | _ => None
  end.

Definition tx_themes_down : @Tx Demo.Stream := Demo.tx_of Demo.store themes_down None.

(** A store on which the insert fails. *)
Definition insert_down (q : Query) : option error :=
  match q with
  | InsertReaction _ => Some (ErrDriver "Error 1452: foreign key constraint fails")
  | _ => None
  end.

Definition dbConn_insert_down : @DB Demo.Stream :=
  mkDB (inr (Demo.tx_of Demo.store insert_down None)).

(** The user responses for the identifiers 0 and 5; the store has no user 0. *)
Definition users_with_zero : gmap Z User :=
  match value (Demo.fillUserResponses Demo.tx [0; 5]) with
  | Ok m => m
  | _ => ∅
  end.

(** A reaction on a livestream that the store does not have. *)
Definition orphan : list ReactionModel := [mkReactionModel 9 ":eyes:" 5 99 200].

Definition orphan_out : list (@Reaction Demo.Stream) :=
  Eval vm_compute in
    match value (Demo.fillReactionResponses Demo.tx orphan) with
    | Ok out => out
    | _ => []
    end.

Definition store_out : list (@Reaction Demo.Stream) :=
  Eval vm_compute in
    match value (Demo.fillReactionResponses Demo.tx (Demo.reactions Demo.store)) with
    | Ok out => out
    | _ => []
    end.

(** The answers of the two handlers on the store. *)
Definition listed : @Response Demo.Stream :=
  Eval vm_compute in
    match value (Demo.getReactionsHandler Demo.dbConn (Demo.request "7" "" (Some 5) None)) with
    | Ok resp => resp
    | _ => JSON 0 (Reactions [])
    end.

Definition created : @Response Demo.Stream :=
  Eval vm_compute in
    match value (Demo.postReactionHandler Demo.dbConn
                   (Demo.request "7" "" (Some 5) Demo.tada)) with
    | Ok resp => resp
    | _ => JSON 0 (Reactions [])
    end.

End Scenarios.

(** * Properties *)

(** ** Lists and maps built by the loops *)

Section Loops.
Context {A V : Type}.

Lemma index_by_snoc (key : A → Z) (val : A → V) (xs : list A) (x : A) :
  index_by key val (xs ++ [x]) = <[key x := val x]> (index_by key val xs).
Proof. unfold index_by. by rewrite foldl_snoc. Qed.


Lemma index_by_absent (key : A → Z) (val : A → V) (xs : list A) (k : Z) :
  (∀ x, x ∈ xs → key x ≠ k) → index_by key val xs !! k = None.
Proof.
  induction xs as [|x xs IH] using rev_ind; intros Habs; [done|].
  rewrite index_by_snoc, lookup_insert_ne.
  - apply IH. intros y Hy. apply Habs, elem_of_app. by left.
  - apply Habs, elem_of_app. right. by apply list_elem_of_singleton.
Qed.

Lemma fill_by_index_from (f : A → V) (xs : list A) :
  ∀ (k : nat) (pre base : list V),
    length pre = k → length base = length xs →
    foldl (λ acc '(i, x), <[i := f x]> acc) (pre ++ base)
          (imap (λ i x, ((k + i)%nat, x)) xs) = pre ++ map f xs.
Proof.
  induction xs as [|x xs IH]; intros k pre base Hpre Hbase.
  - destruct base; [done | discriminate].
  - destruct base as [|b base]; [discriminate|]. simpl in *.
    rewrite <- Hpre, insert_app_r. simpl.
    rewrite (imap_ext _ (λ i y, ((S (length pre) + i)%nat, y))).
    2:{ intros i y _. simpl. f_equal. lia. }
    rewrite (cons_middle (f x) pre base), app_assoc, IH.
    + by rewrite <- app_assoc.
    + rewrite length_app. simpl. lia.
    + lia.
Qed.

(** [out := make([]V, len(xs)); for i := range xs { out[i] = f(xs[i]) }] is
    the list of the images, in the order of [xs]. *)
Lemma fill_by_index (f : A → V) (zero : V) (xs : list A) :
  foldl (λ acc '(i, x), <[i := f x]> acc) (replicate (length xs) zero) (imap pair xs)
  = map f xs.
Proof.
  apply (fill_by_index_from f xs 0 [] (replicate (length xs) zero)); [done|].
  apply length_replicate.
Qed.
End Loops.

(** A map filled over a list of keys holds every key of the list. *)
Lemma index_by_keys {V : Type} (val : Z → V) (ks : list Z) (k : Z) :
  k ∈ ks → index_by id val ks !! k = Some (val k).
Proof.
  induction ks as [|x ks IH] using rev_ind; [by intros ?%elem_of_nil|].
  rewrite index_by_snoc. intros [Hin|Hin]%elem_of_app.
  - destruct (decide (x = k)) as [->|Hne].
    + apply lookup_insert_eq.
    + rewrite lookup_insert_ne by done. by apply IH.
  - apply list_elem_of_singleton in Hin as ->. apply lookup_insert_eq.
Qed.

(** [make] with a length, then [append]: the zeros of [make] stay in front. *)
Lemma collect_ids_eq (key : ReactionModel → Z) (rms : list ReactionModel) :
  collect_ids key rms = replicate (length rms) 0 ++ map key rms.
Proof.
  unfold collect_ids. generalize (replicate (length rms) 0).
  induction rms as [|r rms IH]; intros pre; simpl.
  - by rewrite app_nil_r.
  - by rewrite IH, <- app_assoc.
Qed.

Lemma collect_ids_nonempty (key : ReactionModel → Z) (rms : list ReactionModel) :
  rms ≠ [] → sqlx_In (collect_ids key rms) = inr (collect_ids key rms).
Proof.
  intros Hne. rewrite collect_ids_eq. destruct rms as [|r rms]; [done|]. reflexivity.
Qed.

(** ** Runs of the batch assemblers *)

Section BatchAssembly.
Context {LivestreamModel Livestream : Type}.
Context (Livestream_ID : Livestream → Z) (zeroLivestream : Livestream).
Context (fallbackImageHash : string).
Context (fillLivestreamResponses :
           @Tx LivestreamModel → list LivestreamModel → Collab (list Livestream)).

Local Abbreviation Tx := (@Tx LivestreamModel).
Local Abbreviation fillUsers := (@fillUserResponses LivestreamModel fallbackImageHash).
Local Abbreviation fillReactions :=
  (fillReactionResponses Livestream_ID zeroLivestream fallbackImageHash fillLivestreamResponses).
Local Abbreviation userResponses := (user_responses fallbackImageHash).

Lemma fillUserResponses_run (tx : Tx) (ids : list Z) (t : list Event) :
  ids ≠ [] →
  fillUsers tx ids t =
    match tx_selectUsersIn tx ids with
    | inl e => (Err e, t ++ take 1 (user_statements ids))
    | inr userModels =>
        match tx_selectThemesIn tx ids with
        | inl e => (Err e, t ++ take 2 (user_statements ids))
        | inr themeModels =>
            match tx_selectIconHashesIn tx ids with
            | inl e => (Err e, t ++ user_statements ids)
            | inr iconHashes =>
                (Ok (userResponses userModels themeModels iconHashes ids),
                 t ++ user_statements ids)
            end
        end
    end.
Proof.
  intros Hne. destruct ids as [|k ids]; [done|].
  unfold fillUserResponses, send, bind, emit, lift, fail, ret, user_responses. simpl.
  destruct (tx_selectUsersIn tx (k :: ids)); simpl; [done|].
  destruct (tx_selectThemesIn tx (k :: ids)); simpl; [by rewrite <- app_assoc|].
  destruct (tx_selectIconHashesIn tx (k :: ids)); simpl; by rewrite <- !app_assoc.
Qed.

Lemma fillReactionResponses_run (tx : Tx) (rms : list ReactionModel) (t : list Event) :
  rms ≠ [] →
  let userIDs := collect_ids ReactionModel_UserID rms in
  let livestreamIDs := collect_ids ReactionModel_LivestreamID rms in
  fillReactions tx rms t =
    match fillUsers tx userIDs t with
    | (Ok userResps, t1) =>
        match tx_selectLivestreamsIn tx livestreamIDs with
        | inl e => (Err e, t1 ++ [EvQuery (SelectLivestreamsIn livestreamIDs)])
        | inr livestreamModels =>
            let t2 := t1 ++ [EvQuery (SelectLivestreamsIn livestreamIDs)]
                         ++ external (fst (fillLivestreamResponses tx livestreamModels)) in
            match snd (fillLivestreamResponses tx livestreamModels) with
            | inl e => (Err e, t2)
            | inr livestreamResps =>
                (Ok (map (reaction_response zeroLivestream userResps
                            (index_by Livestream_ID id livestreamResps)) rms), t2)
            end
        end
    | (Err e, t1) => (Err e, t1)
    | (Panic msg, t1) => (Panic msg, t1)
    end.
Proof.
  intros Hne userIDs livestreamIDs. unfold fillReactionResponses.
  rewrite bool_decide_eq_false_2 by (by destruct rms).
  fold userIDs livestreamIDs. unfold bind at 1.
  destruct (fillUsers tx userIDs t) as [[userResps|e|msg] t1]; [|done|done].
  unfold livestreamIDs at 1. rewrite collect_ids_nonempty by done. fold livestreamIDs.
  unfold send, call, bind, emit, lift, fail, ret. simpl.
  destruct (tx_selectLivestreamsIn tx livestreamIDs) as [e|livestreamModels]; simpl; [done|].
  rewrite <- app_assoc. simpl.
  destruct (snd (fillLivestreamResponses tx livestreamModels)); [done|].
  by rewrite fill_by_index.
Qed.

(** *** Counting statements *)

Lemma issued_app (b : Bulk) (t1 t2 : list Event) :
  issued b (t1 ++ t2) = (issued b t1 + issued b t2)%nat.
Proof. unfold issued, queries. by rewrite omap_app, filter_app, length_app. Qed.

Lemma issued_external (b : Bulk) (sqls : list string) : issued b (external sqls) = 0%nat.
Proof. induction sqls as [|sql sqls IH]; [done|]. exact IH. Qed.

Lemma issued_user_statements (b : Bulk) (ids : list Z) :
  issued b (user_statements ids) = if decide (b = Livestreams) then 0%nat else 1%nat.
Proof. by destruct b. Qed.

(** C1. For a non-empty list of reaction records, whatever its length,
    [fillReactionResponses] sends the bulk users statement exactly once and
    each of the bulk themes, icon-hash and livestreams statements at most
    once; and whenever the assembly returns its result (no statement failed),
    it has sent each of the four exactly once. *)
Theorem bulk_query_invariant (tx : Tx) (rms : list ReactionModel) :
  rms ≠ [] →
  let t := trace (fillReactions tx rms) in
  (issued Users t = 1 ∧ issued Themes t ≤ 1 ∧ issued IconHashes t ≤ 1
   ∧ issued Livestreams t ≤ 1)%nat
  ∧ (∀ out, value (fillReactions tx rms) = Ok out →
       issued Users t = 1%nat ∧ issued Themes t = 1%nat
       ∧ issued IconHashes t = 1%nat ∧ issued Livestreams t = 1%nat).
Proof.
  intros Hne. unfold trace, value, run.
  assert (Hids : collect_ids ReactionModel_UserID rms ≠ []).
  { rewrite collect_ids_eq. by destruct rms. }
  rewrite fillReactionResponses_run, fillUserResponses_run by done.
  destruct (tx_selectUsersIn tx _) as [e|userModels];
    [split; [repeat split; vm_compute; lia | intros out; discriminate]|].
  destruct (tx_selectThemesIn tx _) as [e|themeModels];
    [split; [repeat split; vm_compute; lia | intros out; discriminate]|].
  destruct (tx_selectIconHashesIn tx _) as [e|iconHashes];
    [split; [repeat split; vm_compute; lia | intros out; discriminate]|].
  destruct (tx_selectLivestreamsIn tx _) as [e|livestreamModels];
    [split; [repeat split; vm_compute; lia | intros out; discriminate]|].
  assert (Hall : ∀ b, issued b
            (([] ++ user_statements (collect_ids ReactionModel_UserID rms))
               ++ [EvQuery (SelectLivestreamsIn (collect_ids ReactionModel_LivestreamID rms))]
               ++ external (fst (fillLivestreamResponses tx livestreamModels))) = 1%nat).
  { intros b. rewrite !issued_app, issued_external, issued_user_statements.
    by destruct b. }
  destruct (snd (fillLivestreamResponses tx livestreamModels)); simpl;
    rewrite !Hall; split; auto.
Qed.

(** C2. For every list of reaction records [rms] and every permutation
    [rms'] of it, the result of [fillReactionResponses] on [rms'] has the
    length of [rms'], carries the reactions of [rms], and its i-th reaction
    is composed from the i-th record of [rms']: the same id, emoji name and
    creation time, the user resolved for the record's user id and the
    livestream resolved for its livestream id. *)
Theorem output_mirrors_input (tx : Tx) (rms rms' : list ReactionModel) (out : list Reaction) :
  rms ≡ₚ rms' →
  value (fillReactions tx rms') = Ok out →
  length out = length rms'
  ∧ map Reaction_ID out ≡ₚ map ReactionModel_ID rms
  ∧ ∀ (i : nat) (r : ReactionModel),
      rms' !! i = Some r →
      ∃ o, out !! i = Some o
        ∧ Reaction_ID o = ReactionModel_ID r
        ∧ Reaction_EmojiName o = ReactionModel_EmojiName r
        ∧ Reaction_CreatedAt o = ReactionModel_CreatedAt r
        ∧ resolved_user fallbackImageHash tx (collect_ids ReactionModel_UserID rms')
            (ReactionModel_UserID r) (Reaction_User o)
        ∧ resolved_livestream Livestream_ID zeroLivestream fillLivestreamResponses tx
            (collect_ids ReactionModel_LivestreamID rms')
            (ReactionModel_LivestreamID r) (Reaction_Livestream o).
Proof.
  intros Hperm. unfold value, run.
  destruct (decide (rms' = [])) as [->|Hne].
  { intros [= <-]. split; [done|]. split; [by rewrite Hperm|].
    intros i r Hi. by rewrite lookup_nil in Hi. }
  assert (Hids : collect_ids ReactionModel_UserID rms' ≠ []).
  { rewrite collect_ids_eq. by destruct rms'. }
  rewrite fillReactionResponses_run, fillUserResponses_run by done.
  destruct (tx_selectUsersIn tx _) as [e|userModels] eqn:Husers; [discriminate|].
  destruct (tx_selectThemesIn tx _) as [e|themeModels] eqn:Hthemes; [discriminate|].
  destruct (tx_selectIconHashesIn tx _) as [e|iconHashes] eqn:Hhashes; [discriminate|].
  destruct (tx_selectLivestreamsIn tx _) as [e|livestreamModels] eqn:Hstreams; [discriminate|].
  destruct (snd (fillLivestreamResponses tx livestreamModels))
    as [e|livestreamResps] eqn:Hfill; [discriminate|].
  simpl. intros [= <-]. split; [by rewrite length_map|].
  split; [by rewrite Hperm, <- list_fmap_compose|].
  intros i r Hi. eexists. split; [by rewrite list_lookup_fmap, Hi|].
  repeat split; simpl.
  - exists userModels, themeModels, iconHashes. repeat split; try done.
    unfold go_index, user_responses.
    rewrite index_by_keys; [done|].
    rewrite collect_ids_eq. apply elem_of_app. right.
    apply list_elem_of_fmap. exists r. split; [done|]. by eapply list_elem_of_lookup_2.
  - by exists livestreamModels, livestreamResps.
Qed.

Lemma queries_external (sqls : list string) : queries (external sqls) = External <$> sqls.
Proof. induction sqls as [|sql sqls IH]; [done|]. rewrite fmap_cons, <- IH. reflexivity. Qed.

Lemma suffix_collect_ids (key : ReactionModel → Z) (rms : list ReactionModel) :
  map key rms `suffix_of` collect_ids key rms.
Proof. exists (replicate (length rms) 0). apply collect_ids_eq. Qed.

(** The statements of a batch assembly: an initial part of the four bulk
    statements, the first of them at least, then those of the livestream
    hydration. *)
Lemma fillReactionResponses_queries (tx : Tx) (rms : list ReactionModel) :
  rms ≠ [] →
  let userIDs := collect_ids ReactionModel_UserID rms in
  let livestreamIDs := collect_ids ReactionModel_LivestreamID rms in
  ∃ (n : nat) (sqls : list string),
    queries (trace (fillReactions tx rms)) =
      take (S n) [SelectUsersIn userIDs; SelectThemesIn userIDs;
                  SelectIconHashesIn userIDs; SelectLivestreamsIn livestreamIDs]
      ++ (External <$> sqls).
Proof.
  intros Hne userIDs livestreamIDs. unfold trace, run.
  assert (Hids : userIDs ≠ []).
  { unfold userIDs. rewrite collect_ids_eq. by destruct rms. }
  rewrite fillReactionResponses_run, fillUserResponses_run by done.
  fold userIDs livestreamIDs.
  destruct (tx_selectUsersIn tx _); [by exists 0%nat, []|].
  destruct (tx_selectThemesIn tx _); [by exists 1%nat, []|].
  destruct (tx_selectIconHashesIn tx _); [by exists 2%nat, []|].
  destruct (tx_selectLivestreamsIn tx _) as [e|livestreamModels]; [by exists 3%nat, []|].
  exists 3%nat, (fst (fillLivestreamResponses tx livestreamModels)).
  destruct (snd (fillLivestreamResponses tx livestreamModels)); simpl;
    by rewrite <- queries_external.
Qed.

(** C3, as amended.  For a non-empty list of reaction records, the bulk users
    statement is sent, and the identifier lists passed to the bulk users,
    themes and icon-hash statements end with the user identifiers of the
    records, one per record in input order, as the list passed to the bulk
    livestreams statement ends with their livestream identifiers: every
    referenced identifier is passed, and none is deduplicated. *)
Theorem identifiers_passed (tx : Tx) (rms : list ReactionModel) :
  rms ≠ [] →
  let qs := queries (trace (fillReactions tx rms)) in
  (∃ ids, SelectUsersIn ids ∈ qs)
  ∧ (∀ ids, SelectUsersIn ids ∈ qs ∨ SelectThemesIn ids ∈ qs ∨ SelectIconHashesIn ids ∈ qs →
       map ReactionModel_UserID rms `suffix_of` ids)
  ∧ (∀ ids, SelectLivestreamsIn ids ∈ qs →
       map ReactionModel_LivestreamID rms `suffix_of` ids).
Proof.
  intros Hne qs. unfold qs.
  destruct (fillReactionResponses_queries tx rms Hne) as (n & sqls & ->).
  assert (Hext : ∀ q, q ∈ External <$> sqls → ∃ sql, q = External sql).
  { intros q (sql & -> & _)%list_elem_of_fmap. by exists sql. }
  assert (Hsub : ∀ q,
    q ∈ take (S n) [SelectUsersIn (collect_ids ReactionModel_UserID rms);
                    SelectThemesIn (collect_ids ReactionModel_UserID rms);
                    SelectIconHashesIn (collect_ids ReactionModel_UserID rms);
                    SelectLivestreamsIn (collect_ids ReactionModel_LivestreamID rms)]
        ++ (External <$> sqls) →
    q = SelectUsersIn (collect_ids ReactionModel_UserID rms)
    ∨ q = SelectThemesIn (collect_ids ReactionModel_UserID rms)
    ∨ q = SelectIconHashesIn (collect_ids ReactionModel_UserID rms)
    ∨ q = SelectLivestreamsIn (collect_ids ReactionModel_LivestreamID rms)
    ∨ ∃ sql, q = External sql).
  { intros q [Hq|Hq]%elem_of_app; [|by repeat right; apply Hext].
    apply list_elem_of_lookup in Hq as [i Hq]. apply lookup_take_Some in Hq as [Hq _].
    destruct i as [|[|[|[|i]]]]; simpl in Hq; try discriminate;
      injection Hq as <-; auto. }
  split; [|split].
  - eexists. apply elem_of_app. left. simpl. apply list_elem_of_here.
  - intros ids Hin.
    assert (ids = collect_ids ReactionModel_UserID rms) as ->;
      [|apply suffix_collect_ids].
    destruct Hin as [Hin|[Hin|Hin]];
      apply Hsub in Hin as [H|[H|[H|[H|[sql H]]]]]; congruence.
  - intros ids Hin.
    assert (ids = collect_ids ReactionModel_LivestreamID rms) as ->;
      [|apply suffix_collect_ids].
    apply Hsub in Hin as [H|[H|[H|[H|[sql H]]]]]; congruence.
Qed.

(** C4.  Provided the fallback constant is not the empty string: for every
    user identifier requested from [fillUserResponses], if the icon-hash
    statement answered no row for that user, the user response built for it
    carries the fallback constant as its icon hash, which is not empty. *)
Theorem fallback_icon_hash (tx : Tx) (userIDs : list Z) (m : gmap Z User) (k : Z) :
  fallbackImageHash ≠ "" →
  value (fillUsers tx userIDs) = Ok m →
  k ∈ userIDs →
  (∀ iconHashes row,
     tx_selectIconHashesIn tx userIDs = inr iconHashes →
     row ∈ iconHashes → IconHashRow_UserID row ≠ k) →
  ∃ u, m !! k = Some u ∧ User_IconHash u = fallbackImageHash ∧ User_IconHash u ≠ "".
Proof.
  intros Hfallback Hrun Hk Hnone. unfold value, run in Hrun.
  assert (Hids : userIDs ≠ []) by (intros ->; by apply elem_of_nil in Hk).
  rewrite fillUserResponses_run in Hrun by done.
  destruct (tx_selectUsersIn tx userIDs) as [e|userModels]; [discriminate|].
  destruct (tx_selectThemesIn tx userIDs) as [e|themeModels]; [discriminate|].
  destruct (tx_selectIconHashesIn tx userIDs) as [e|iconHashes]; [discriminate|].
  injection Hrun as <-. eexists. split; [by apply index_by_keys|].
  unfold user_response; simpl.
  rewrite index_by_absent; [done|].
  intros row Hrow. by apply (Hnone iconHashes).
Qed.

(** C7, as amended.  On an empty list of records [fillReactionResponses]
    returns the empty sequence and sends nothing.  On an empty list of
    identifiers [fillUserResponses] sends nothing either, and returns the
    error of [sqlx.In] for an empty slice, not an empty result. *)
Theorem empty_input (tx : Tx) :
  run (fillReactions tx []) = (Ok [], [])
  ∧ run (fillUsers tx []) = (Err ErrEmptyIn, []).
Proof. split; reflexivity. Qed.

End BatchAssembly.

(** ** Runs of the handlers *)

Section WithinTransaction.
Context {A B : Type}.

Lemma within_tx_ret (a : A) : within_tx (ret a).
Proof. intros t. exists []. by rewrite app_nil_r. Qed.

Lemma within_tx_fail (e : error) : within_tx (@fail A e).
Proof. intros t. exists []. by rewrite app_nil_r. Qed.

Lemma within_tx_panic (msg : string) : within_tx (@panic A msg).
Proof. intros t. exists []. by rewrite app_nil_r. Qed.

Lemma within_tx_lift (r : error + A) : within_tx (lift r).
Proof. destruct r; [apply within_tx_fail | apply within_tx_ret]. Qed.

Lemma within_tx_bind (m : M A) (k : A → M B) :
  within_tx m → (∀ a, within_tx (k a)) → within_tx (bind m k).
Proof.
  intros Hm Hk t. unfold bind. destruct (Hm t) as (t1 & H1 & Hs1).
  destruct (m t) as [[a|e|msg] t']; simpl in H1; subst t'; [|by exists t1..].
  destruct (Hk a (t ++ t1)) as (t2 & H2 & Hs2). exists (t1 ++ t2).
  rewrite H2, app_assoc. split; [done|]. by apply Forall_app.
Qed.

Lemma within_tx_or_return (m : M A) (wrap : error → error) :
  within_tx m → within_tx (or_return m wrap).
Proof.
  intros Hm t. unfold or_return. destruct (Hm t) as (t1 & H1 & Hs1).
  destruct (m t) as [[a|e|msg] t']; by exists t1.
Qed.

Lemma within_tx_send (q : Query) (answer : error + A) : within_tx (send q answer).
Proof.
  intros t. exists [EvQuery q]. unfold send, bind, emit.
  destruct answer; simpl; split; by repeat constructor.
Qed.

Lemma within_tx_call (c : Collab A) : within_tx (call c).
Proof.
  intros t. exists (external (fst c)). split; [done|].
  apply Forall_forall. intros ev (sql & -> & _)%list_elem_of_fmap. exact I.
Qed.
End WithinTransaction.

Ltac within_tx :=
  repeat first
    [ apply within_tx_ret | apply within_tx_fail | apply within_tx_panic
    | apply within_tx_lift | apply within_tx_send | apply within_tx_call
    | apply within_tx_or_return
    | apply within_tx_bind; [|intros ?]
    | match goal with
      | |- within_tx (match ?x with _ => _ end) => destruct x
      end ].

Section HandlerRuns.
Context {LivestreamModel Livestream : Type}.
Context (Livestream_ID : Livestream → Z) (zeroLivestream : Livestream).
Context (fallbackImageHash : string).
Context (verifyUserSession : Context → option error).
Context (fillUserResponse : @Tx LivestreamModel → UserModel → Collab User).
Context (fillLivestreamResponse : @Tx LivestreamModel → LivestreamModel → Collab Livestream).
Context (fillLivestreamResponses :
           @Tx LivestreamModel → list LivestreamModel → Collab (list Livestream)).

Local Abbreviation Tx := (@Tx LivestreamModel).
Local Abbreviation DB := (@DB LivestreamModel).
Local Abbreviation getReactions :=
  (getReactionsHandler Livestream_ID zeroLivestream fallbackImageHash
     verifyUserSession fillLivestreamResponses).
Local Abbreviation postReaction :=
  (postReactionHandler verifyUserSession fillUserResponse fillLivestreamResponse).

Lemma within_tx_Commit (tx : Tx) : within_tx (Commit tx).
Proof.
  intros t. unfold Commit, bind, emit, fail.
  destruct (tx_commit tx); simpl; eexists; split; try done; by repeat constructor.
Qed.

Lemma within_tx_fillReactionResponses (tx : Tx) (rms : list ReactionModel) :
  within_tx (fillReactionResponses Livestream_ID zeroLivestream fallbackImageHash
               fillLivestreamResponses tx rms).
Proof. unfold fillReactionResponses. within_tx. Qed.

(** A deferred rollback closes the trace of the body it guards. *)
Lemma defer_Rollback {A : Type} (tx : Tx) (body : M A) (t : list Event) :
  within_tx body →
  ∃ t', defer (Rollback tx) body t = (fst (body t), t ++ t' ++ [EvRollback])
        ∧ Forall is_statement t'.
Proof.
  intros Hbody. destruct (Hbody t) as (t' & Ht' & Hs). exists t'. split; [|done].
  unfold defer, Rollback, emit. destruct (body t) as [r t1]. simpl in *. subst t1.
  by rewrite <- app_assoc.
Qed.

Lemma getReactionsHandler_trace (dbConn : DB) (c : Context) :
  handler_trace (trace (getReactions dbConn c)).
Proof.
  unfold trace, run, getReactionsHandler. unfold bind at 1.
  destruct (verifyUserSession c); simpl; [by left|].
  destruct (Atoi (Param_livestream_id c)) as [livestreamID|]; [|by left].
  unfold bind at 1, or_return, BeginTxx.
  destruct (db_begin dbConn) as [e|tx]; simpl; [by right; left|].
  right; right.
  match goal with
  | |- context [defer (Rollback tx) ?body] =>
      destruct (defer_Rollback tx body [EvBegin true]) as (t' & -> & Hs)
  end.
  - within_tx; try apply within_tx_Commit. apply within_tx_fillReactionResponses.
  - by exists t'.
Qed.

Lemma postReactionHandler_trace (dbConn : DB) (c : Context) :
  handler_trace (trace (postReaction dbConn c)).
Proof.
  unfold trace, run, postReactionHandler.
  destruct (Atoi (Param_livestream_id c)) as [livestreamID|]; [|by left].
  unfold bind at 1.
  destruct (verifyUserSession c); simpl; [by left|].
  unfold bind at 1.
  destruct (Session_user_id c) as [userID|]; simpl; [|by left].
  unfold bind at 1, or_return at 1.
  destruct (Decode (Body c)) as [e|req]; simpl; [by left|].
  unfold bind at 1, or_return at 1, BeginTxx.
  destruct (db_begin dbConn) as [e|tx]; simpl; [by right; left|].
  right; right.
  match goal with
  | |- context [defer (Rollback tx) ?body] =>
      destruct (defer_Rollback tx body [EvBegin true]) as (t' & -> & Hs)
  end.
  - within_tx; apply within_tx_Commit.
  - by exists t'.
Qed.

Lemma handler_trace_rollback (t : list Event) :
  handler_trace t → EvBegin true ∈ t →
  ∃ t0, t = t0 ++ [EvRollback] ∧ EvRollback ∉ t0.
Proof.
  intros [->|[->|(t' & -> & Hs)]] Hin.
  - by apply elem_of_nil in Hin.
  - apply list_elem_of_singleton in Hin. discriminate.
  - exists (EvBegin true :: t'). split; [done|].
    intros [Hr|Hr]%elem_of_cons; [discriminate|].
    rewrite Forall_forall in Hs. exact (Hs _ Hr).
Qed.

(** C9.  In both handlers, once [BeginTxx] has given a transaction, the call
    of [tx.Rollback] is the last event of the run, and the only rollback: it
    follows every error exit, the exit by a panic, a failed commit and a
    successful one. *)
Theorem rollback_on_every_exit (dbConn : DB) (c : Context) :
  (EvBegin true ∈ trace (getReactions dbConn c) →
     ∃ t0, trace (getReactions dbConn c) = t0 ++ [EvRollback] ∧ EvRollback ∉ t0)
  ∧ (EvBegin true ∈ trace (postReaction dbConn c) →
     ∃ t0, trace (postReaction dbConn c) = t0 ++ [EvRollback] ∧ EvRollback ∉ t0).
Proof.
  split; apply handler_trace_rollback;
    [apply getReactionsHandler_trace | apply postReactionHandler_trace].
Qed.

(** C8.  For every request to the list handler whose [limit] parameter is
    present (not the empty string, which is how the handler tests it) and not
    an integer, no statement is sent and the handler returns an error; and
    when the session is verified and the transaction is opened, which the
    handler does before it reads [limit], that error is a bad-request one. *)
Theorem non_integer_limit (dbConn : DB) (c : Context) :
  QueryParam_limit c ≠ "" →
  Atoi (QueryParam_limit c) = None →
  queries (trace (getReactions dbConn c)) = []
  ∧ (∃ e, value (getReactions dbConn c) = Err e)
  ∧ (verifyUserSession c = None →
     (∃ tx, db_begin dbConn = inr tx) →
     ∃ message, value (getReactions dbConn c) = Err (HTTPError StatusBadRequest message)).
Proof.
  intros Hpresent Hlimit. unfold trace, value, run, getReactionsHandler.
  unfold bind at 1.
  destruct (verifyUserSession c); simpl; [split; [done|split; [by eexists|discriminate]]|].
  destruct (Atoi (Param_livestream_id c)) as [livestreamID|];
    [|split; [done|split; [|intros _ _]; by eexists]].
  unfold bind at 1, or_return at 1, BeginTxx.
  destruct (db_begin dbConn) as [e|tx]; simpl.
  { split; [done|]. split; [by eexists|]. intros _ [tx [=]]. }
  unfold defer, bind at 1. rewrite bool_decide_eq_true_2, Hlimit by done. simpl.
  split; [done|]. split; [|intros _ _]; by eexists.
Qed.

(** C10.  The body [null] decodes without an error into a nil request; and
    for a request with that body that passes the path and session checks and
    opens the transaction, [postReactionHandler] panics on the nil pointer
    (the deferred rollback runs, no statement is sent), where a body that
    fails to decode gives the bad-request error. *)
Theorem null_body_panics (dbConn : DB) (c : Context) (livestreamID userID : Z) (tx : Tx) :
  Body c = Some JNull →
  Atoi (Param_livestream_id c) = Some livestreamID →
  verifyUserSession c = None →
  Session_user_id c = Some userID →
  db_begin dbConn = inr tx →
  Decode (Body c) = inr None
  ∧ run (postReaction dbConn c) =
      (Panic "runtime error: invalid memory address or nil pointer dereference",
       [EvBegin true; EvRollback])
  ∧ (∀ c' e,
       Decode (Body c') = inl e →
       Atoi (Param_livestream_id c') = Some livestreamID →
       verifyUserSession c' = None →
       Session_user_id c' = Some userID →
       run (postReaction dbConn c') =
         (Err (HTTPError StatusBadRequest "failed to decode the request body as json"), [])).
Proof.
  intros Hbody Hparam Hsession Huser Hbegin. split; [by rewrite Hbody|]. split.
  - unfold run, postReactionHandler. rewrite Hparam. unfold bind at 1.
    rewrite Hsession. simpl. unfold bind at 1. rewrite Huser. simpl.
    unfold bind at 1, or_return at 1. rewrite Hbody. simpl.
    unfold bind at 1, or_return at 1, BeginTxx. rewrite Hbegin. reflexivity.
  - intros c' e Hdecode Hparam' Hsession' Huser'.
    unfold run, postReactionHandler. rewrite Hparam'. unfold bind at 1.
    rewrite Hsession'. simpl. unfold bind at 1. rewrite Huser'. simpl.
    unfold bind at 1, or_return at 1. by rewrite Hdecode.
Qed.

(** C5, as amended.  In [postReactionHandler], once the reaction is inserted,
    a failure of the user lookup or of the livestream lookup of
    [fillReactionResponse] - zero rows ([ErrNoRows]) as any other error of the
    store - makes the handler fail with the internal-server-error status, the
    message of the cause appended to "failed to fill reaction: ". *)
Theorem lookup_failure_is_internal (dbConn : DB) (c : Context) (tx : Tx)
    (livestreamID userID reactionID : Z) (req : PostReactionRequest) (e : error) :
  Atoi (Param_livestream_id c) = Some livestreamID →
  verifyUserSession c = None →
  Session_user_id c = Some userID →
  Decode (Body c) = inr (Some req) →
  db_begin dbConn = inr tx →
  tx_insertReaction tx
    (mkReactionModel 0 (PostReactionRequest_EmojiName req) userID livestreamID (Now c))
    = inr (inr reactionID) →
  (tx_getUser tx userID = inl e
   ∨ ∃ userModel user,
       tx_getUser tx userID = inr userModel
       ∧ snd (fillUserResponse tx userModel) = inr user
       ∧ tx_getLivestream tx livestreamID = inl e) →
  value (postReaction dbConn c) =
    Err (HTTPError StatusInternalServerError ("failed to fill reaction: " +:+ Error e)).
Proof.
  intros Hparam Hsession Huser Hdecode Hbegin Hinsert Hlookup.
  unfold value, run, postReactionHandler. rewrite Hparam. unfold bind at 1.
  rewrite Hsession. simpl. unfold bind at 1. rewrite Huser. simpl.
  unfold bind at 1, or_return at 1. rewrite Hdecode. simpl.
  unfold bind at 1, or_return at 1, BeginTxx. rewrite Hbegin. simpl.
  unfold defer, bind at 1. simpl. unfold bind at 1, or_return at 1, send. simpl.
  rewrite Hinsert. simpl. unfold bind at 1, or_return at 1. simpl.
  unfold bind at 1, or_return at 1, fillReactionResponse, send, call, bind. simpl.
  destruct Hlookup as [Hget|(userModel & user & Hget & Hfill & Hstream)].
  - by rewrite Hget.
  - rewrite Hget. simpl. rewrite Hfill. simpl. by rewrite Hstream.
Qed.

(** C6, what the code does.  For a request that passes the session and path
    checks, opens the transaction and carries no [limit] or an integer one, a
    failure of the bulk reactions statement, whatever its cause, makes the
    list handler fail with the not-found status and the fixed message
    "failed to get reactions": the cause is dropped, and the status is not the
    internal-server-error one of the other failures of the handler. *)
Theorem reactions_query_failure_is_not_found (dbConn : DB) (c : Context) (tx : Tx)
    (livestreamID : Z) (limit : option Z) (e : error) :
  verifyUserSession c = None →
  Atoi (Param_livestream_id c) = Some livestreamID →
  db_begin dbConn = inr tx →
  (QueryParam_limit c = "" ∧ limit = None
   ∨ QueryParam_limit c ≠ "" ∧ Atoi (QueryParam_limit c) = limit ∧ is_Some limit) →
  tx_selectReactions tx livestreamID limit = inl e →
  run (getReactions dbConn c) =
    (Err (HTTPError StatusNotFound "failed to get reactions"),
     [EvBegin true; EvQuery (SelectReactions livestreamID limit); EvRollback]).
Proof.
  intros Hsession Hparam Hbegin Hlimit Hselect.
  unfold run, getReactionsHandler. unfold bind at 1. rewrite Hsession. simpl.
  rewrite Hparam. unfold bind at 1, or_return at 1, BeginTxx. rewrite Hbegin. simpl.
  unfold defer, bind at 1.
  destruct Hlimit as [[Hno ->]|(Hyes & Hatoi & [l ->])].
  - rewrite bool_decide_eq_false_2 by (by intros ?). simpl.
    unfold bind at 1, or_return at 1, send, bind, emit. simpl. by rewrite Hselect.
  - rewrite bool_decide_eq_true_2, Hatoi by done. simpl.
    unfold bind at 1, or_return at 1, send, bind, emit. simpl. by rewrite Hselect.
Qed.

End HandlerRuns.

(** ** The properties on the store in memory *)

Lemma bulk_query_invariant_witness :
  Demo.reactions Demo.store ≠ []
  ∧ (issued Users (trace (Demo.fillReactionResponses Demo.tx (Demo.reactions Demo.store))) = 1
     ∧ issued Themes (trace (Demo.fillReactionResponses Demo.tx (Demo.reactions Demo.store))) ≤ 1
     ∧ issued IconHashes (trace (Demo.fillReactionResponses Demo.tx (Demo.reactions Demo.store))) ≤ 1
     ∧ issued Livestreams (trace (Demo.fillReactionResponses Demo.tx (Demo.reactions Demo.store))) ≤ 1)%nat
  ∧ (∀ out,
       value (Demo.fillReactionResponses Demo.tx (Demo.reactions Demo.store)) = Ok out →
       issued Users (trace (Demo.fillReactionResponses Demo.tx (Demo.reactions Demo.store))) = 1%nat
       ∧ issued Themes (trace (Demo.fillReactionResponses Demo.tx (Demo.reactions Demo.store))) = 1%nat
       ∧ issued IconHashes (trace (Demo.fillReactionResponses Demo.tx (Demo.reactions Demo.store))) = 1%nat
       ∧ issued Livestreams (trace (Demo.fillReactionResponses Demo.tx (Demo.reactions Demo.store))) = 1%nat).
Proof.
  split; [discriminate|].
  apply (bulk_query_invariant Demo.Stream_ID Demo.zeroStream Demo.fallbackImageHash
           Demo.fillLivestreamResponses Demo.tx (Demo.reactions Demo.store)).
  discriminate.
Defined.

Lemma output_mirrors_input_witness :
  Demo.reactions Demo.store ≡ₚ Demo.shuffled
  ∧ value (Demo.fillReactionResponses Demo.tx Demo.shuffled) = Ok Demo.shuffled_out
  ∧ length Demo.shuffled_out = length Demo.shuffled
  ∧ map Reaction_ID Demo.shuffled_out ≡ₚ map ReactionModel_ID (Demo.reactions Demo.store)
  ∧ ∀ (i : nat) (r : ReactionModel),
      Demo.shuffled !! i = Some r →
      ∃ o, Demo.shuffled_out !! i = Some o
        ∧ Reaction_ID o = ReactionModel_ID r
        ∧ Reaction_EmojiName o = ReactionModel_EmojiName r
        ∧ Reaction_CreatedAt o = ReactionModel_CreatedAt r
        ∧ resolved_user Demo.fallbackImageHash Demo.tx
            (collect_ids ReactionModel_UserID Demo.shuffled)
            (ReactionModel_UserID r) (Reaction_User o)
        ∧ resolved_livestream Demo.Stream_ID Demo.zeroStream Demo.fillLivestreamResponses
            Demo.tx (collect_ids ReactionModel_LivestreamID Demo.shuffled)
            (ReactionModel_LivestreamID r) (Reaction_Livestream o).
Proof.
  assert (Hperm : Demo.reactions Demo.store ≡ₚ Demo.shuffled) by apply perm_swap.
  assert (Hrun : value (Demo.fillReactionResponses Demo.tx Demo.shuffled)
                 = Ok Demo.shuffled_out) by (vm_compute; reflexivity).
  split; [exact Hperm|]. split; [exact Hrun|].
  exact (output_mirrors_input Demo.Stream_ID Demo.zeroStream Demo.fallbackImageHash
           Demo.fillLivestreamResponses Demo.tx _ _ _ Hperm Hrun).
Defined.

(** C3, as stated, fails: for the three reactions of the store, two of them by
    user 5, the list passed to the bulk users statement is [0; 0; 0; 5; 6; 5],
    which is not the set of the distinct user identifiers. *)
Lemma identifiers_not_distinct :
  ¬ (∀ ids,
       SelectUsersIn ids
         ∈ queries (trace (Demo.fillReactionResponses Demo.tx (Demo.reactions Demo.store))) →
       distinct_ids_of (map ReactionModel_UserID (Demo.reactions Demo.store)) ids).
Proof.
  intros Hclaim. destruct (Hclaim [0; 0; 0; 5; 6; 5]) as [Hnodup _].
  - vm_compute. apply list_elem_of_here.
  - apply NoDup_cons in Hnodup as [_ Hnodup]. apply NoDup_cons in Hnodup as [_ Hnodup].
    apply NoDup_cons in Hnodup as [_ Hnodup]. apply NoDup_cons in Hnodup as [Hfresh _].
    apply Hfresh. apply list_elem_of_further, list_elem_of_here.
Qed.

Lemma identifiers_passed_witness :
  Demo.reactions Demo.store ≠ []
  ∧ (∃ ids, SelectUsersIn ids
       ∈ queries (trace (Demo.fillReactionResponses Demo.tx (Demo.reactions Demo.store))))
  ∧ (∀ ids,
       SelectUsersIn ids
         ∈ queries (trace (Demo.fillReactionResponses Demo.tx (Demo.reactions Demo.store)))
       ∨ SelectThemesIn ids
         ∈ queries (trace (Demo.fillReactionResponses Demo.tx (Demo.reactions Demo.store)))
       ∨ SelectIconHashesIn ids
         ∈ queries (trace (Demo.fillReactionResponses Demo.tx (Demo.reactions Demo.store))) →
       map ReactionModel_UserID (Demo.reactions Demo.store) `suffix_of` ids)
  ∧ (∀ ids,
       SelectLivestreamsIn ids
         ∈ queries (trace (Demo.fillReactionResponses Demo.tx (Demo.reactions Demo.store))) →
       map ReactionModel_LivestreamID (Demo.reactions Demo.store) `suffix_of` ids).
Proof.
  split; [discriminate|].
  apply (identifiers_passed Demo.Stream_ID Demo.zeroStream Demo.fallbackImageHash
           Demo.fillLivestreamResponses Demo.tx (Demo.reactions Demo.store)).
  discriminate.
Defined.

Lemma fallback_icon_hash_witness :
  Demo.fallbackImageHash ≠ ""
  ∧ value (Demo.fillUserResponses Demo.tx [5; 6]) = Ok Demo.both_users
  ∧ 5 ∈ [5; 6]
  ∧ (∀ iconHashes row,
       tx_selectIconHashesIn Demo.tx [5; 6] = inr iconHashes →
       row ∈ iconHashes → IconHashRow_UserID row ≠ 5)
  ∧ ∃ u, Demo.both_users !! 5 = Some u
       ∧ User_IconHash u = Demo.fallbackImageHash ∧ User_IconHash u ≠ "".
Proof.
  assert (Hfallback : Demo.fallbackImageHash ≠ "") by discriminate.
  assert (Hrun : value (Demo.fillUserResponses Demo.tx [5; 6]) = Ok Demo.both_users)
    by reflexivity.
  assert (Hin : 5 ∈ [5; 6]) by apply list_elem_of_here.
  assert (Hnone : ∀ iconHashes row,
            tx_selectIconHashesIn Demo.tx [5; 6] = inr iconHashes →
            row ∈ iconHashes → IconHashRow_UserID row ≠ 5).
  { intros iconHashes row [= <-] Hrow%list_elem_of_singleton. by subst row. }
  repeat (split; [assumption|]).
  exact (fallback_icon_hash Demo.fallbackImageHash Demo.tx [5; 6] Demo.both_users 5
           Hfallback Hrun Hin Hnone).
Defined.

(** C5, as stated, fails: user 9 has no row, so the user lookup of
    [fillReactionResponse] matches zero rows, and the post handler answers
    with the internal-server-error status, not with the not-found status. *)
Lemma zero_rows_is_not_NotFound :
  tx_getUser Demo.tx 9 = inl ErrNoRows
  ∧ value (Demo.postReactionHandler Demo.dbConn (Demo.request "7" "" (Some 9) Demo.tada))
    = Err (HTTPError StatusInternalServerError
             "failed to fill reaction: sql: no rows in result set")
  ∧ ¬ ∃ message,
        value (Demo.postReactionHandler Demo.dbConn (Demo.request "7" "" (Some 9) Demo.tada))
        = Err (HTTPError StatusNotFound message).
Proof.
  split; [reflexivity|]. split; [reflexivity|]. intros [message Hrun].
  vm_compute in Hrun. discriminate.
Qed.

Lemma lookup_failure_is_internal_witness :
  Atoi (Param_livestream_id (Demo.request "7" "" (Some 9) Demo.tada)) = Some 7
  ∧ Demo.verifyUserSession (Demo.request "7" "" (Some 9) Demo.tada) = None
  ∧ Session_user_id (Demo.request "7" "" (Some 9) Demo.tada) = Some 9
  ∧ Decode (Body (Demo.request "7" "" (Some 9) Demo.tada))
    = inr (Some (mkPostReactionRequest ":tada:"))
  ∧ db_begin Demo.dbConn = inr Demo.tx
  ∧ tx_insertReaction Demo.tx (mkReactionModel 0 ":tada:" 9 7 1700000000) = inr (inr 4)
  ∧ tx_getUser Demo.tx 9 = inl ErrNoRows
  ∧ value (Demo.postReactionHandler Demo.dbConn (Demo.request "7" "" (Some 9) Demo.tada))
    = Err (HTTPError StatusInternalServerError
             ("failed to fill reaction: " +:+ Error ErrNoRows)).
Proof.
  repeat (split; [reflexivity|]).
  apply (lookup_failure_is_internal Demo.verifyUserSession Demo.fillUserResponse
           Demo.fillLivestreamResponse Demo.dbConn (Demo.request "7" "" (Some 9) Demo.tada)
           Demo.tx 7 9 4 (mkPostReactionRequest ":tada:") ErrNoRows);
    try reflexivity.
  left. reflexivity.
Defined.

Lemma reactions_query_failure_is_not_found_witness :
  Demo.verifyUserSession (Demo.request "7" "" (Some 5) None) = None
  ∧ Atoi (Param_livestream_id (Demo.request "7" "" (Some 5) None)) = Some 7
  ∧ db_begin Demo.dbConn_reactions_down = inr (Demo.tx_of Demo.store Demo.reactions_down None)
  ∧ QueryParam_limit (Demo.request "7" "" (Some 5) None) = ""
  ∧ tx_selectReactions (Demo.tx_of Demo.store Demo.reactions_down None) 7 None
    = inl (ErrDriver "invalid connection")
  ∧ run (Demo.getReactionsHandler Demo.dbConn_reactions_down (Demo.request "7" "" (Some 5) None))
    = (Err (HTTPError StatusNotFound "failed to get reactions"),
       [EvBegin true; EvQuery (SelectReactions 7 None); EvRollback]).
Proof.
  repeat (split; [reflexivity|]).
  apply (reactions_query_failure_is_not_found Demo.Stream_ID Demo.zeroStream
           Demo.fallbackImageHash Demo.verifyUserSession Demo.fillLivestreamResponses
           Demo.dbConn_reactions_down (Demo.request "7" "" (Some 5) None)
           (Demo.tx_of Demo.store Demo.reactions_down None) 7 None
           (ErrDriver "invalid connection")); try reflexivity.
  left. split; reflexivity.
Defined.

(** C7, as stated, fails: on an empty list of identifiers [fillUserResponses]
    does not return an empty result; it returns an error. *)
Lemma empty_ids_is_an_error :
  ¬ (value (Demo.fillUserResponses Demo.tx []) = Ok ∅
     ∧ trace (Demo.fillUserResponses Demo.tx []) = []).
Proof. intros [Hvalue _]. vm_compute in Hvalue. discriminate. Qed.

Lemma non_integer_limit_witness :
  QueryParam_limit (Demo.request "7" "abc" (Some 5) None) ≠ ""
  ∧ Atoi (QueryParam_limit (Demo.request "7" "abc" (Some 5) None)) = None
  ∧ queries (trace (Demo.getReactionsHandler Demo.dbConn
                      (Demo.request "7" "abc" (Some 5) None))) = []
  ∧ (∃ e, value (Demo.getReactionsHandler Demo.dbConn
                   (Demo.request "7" "abc" (Some 5) None)) = Err e)
  ∧ (Demo.verifyUserSession (Demo.request "7" "abc" (Some 5) None) = None →
     (∃ tx, db_begin Demo.dbConn = inr tx) →
     ∃ message,
       value (Demo.getReactionsHandler Demo.dbConn (Demo.request "7" "abc" (Some 5) None))
       = Err (HTTPError StatusBadRequest message)).
Proof.
  split; [discriminate|]. split; [reflexivity|].
  apply (non_integer_limit Demo.Stream_ID Demo.zeroStream Demo.fallbackImageHash
           Demo.verifyUserSession Demo.fillLivestreamResponses Demo.dbConn
           (Demo.request "7" "abc" (Some 5) None)); [discriminate | reflexivity].
Defined.

Lemma rollback_on_every_exit_witness :
  (EvBegin true
     ∈ trace (Demo.getReactionsHandler Demo.dbConn_commit_fails
                (Demo.request "7" "" (Some 5) None))
   ∧ ∃ t0, trace (Demo.getReactionsHandler Demo.dbConn_commit_fails
                    (Demo.request "7" "" (Some 5) None)) = t0 ++ [EvRollback]
           ∧ EvRollback ∉ t0)
  ∧ (EvBegin true
       ∈ trace (Demo.postReactionHandler Demo.dbConn_commit_fails
                  (Demo.request "7" "" (Some 5) Demo.tada))
     ∧ ∃ t0, trace (Demo.postReactionHandler Demo.dbConn_commit_fails
                      (Demo.request "7" "" (Some 5) Demo.tada)) = t0 ++ [EvRollback]
             ∧ EvRollback ∉ t0).
Proof.
  destruct (rollback_on_every_exit Demo.Stream_ID Demo.zeroStream Demo.fallbackImageHash
              Demo.verifyUserSession Demo.fillUserResponse Demo.fillLivestreamResponse
              Demo.fillLivestreamResponses Demo.dbConn_commit_fails
              (Demo.request "7" "" (Some 5) None)) as [Hget _].
  destruct (rollback_on_every_exit Demo.Stream_ID Demo.zeroStream Demo.fallbackImageHash
              Demo.verifyUserSession Demo.fillUserResponse Demo.fillLivestreamResponse
              Demo.fillLivestreamResponses Demo.dbConn_commit_fails
              (Demo.request "7" "" (Some 5) Demo.tada)) as [_ Hpost].
  assert (Hgo : EvBegin true
            ∈ trace (Demo.getReactionsHandler Demo.dbConn_commit_fails
                       (Demo.request "7" "" (Some 5) None)))
    by (vm_compute; apply list_elem_of_here).
  assert (Hpo : EvBegin true
            ∈ trace (Demo.postReactionHandler Demo.dbConn_commit_fails
                       (Demo.request "7" "" (Some 5) Demo.tada)))
    by (vm_compute; apply list_elem_of_here).
  split; (split; [assumption|]); [exact (Hget Hgo) | exact (Hpost Hpo)].
Defined.

Lemma null_body_panics_witness :
  Body (Demo.request "7" "" (Some 5) (Some JNull)) = Some JNull
  ∧ Atoi (Param_livestream_id (Demo.request "7" "" (Some 5) (Some JNull))) = Some 7
  ∧ Demo.verifyUserSession (Demo.request "7" "" (Some 5) (Some JNull)) = None
  ∧ Session_user_id (Demo.request "7" "" (Some 5) (Some JNull)) = Some 5
  ∧ db_begin Demo.dbConn = inr Demo.tx
  ∧ run (Demo.postReactionHandler Demo.dbConn (Demo.request "7" "" (Some 5) (Some JNull)))
    = (Panic "runtime error: invalid memory address or nil pointer dereference",
       [EvBegin true; EvRollback]).
Proof.
  repeat (split; [reflexivity|]).
  apply (null_body_panics Demo.verifyUserSession Demo.fillUserResponse
           Demo.fillLivestreamResponse Demo.dbConn
           (Demo.request "7" "" (Some 5) (Some JNull)) 7 5 Demo.tx); reflexivity.
Defined.

(** * Further properties *)

(** Forget the parameters that a statement does not mention. *)
Ltac drop_unused := repeat match goal with x : _ |- _ => clear x end.

(** ** The batch user-response builder *)

Section UserResponses.
Context {LivestreamModel : Type}.
Context (fallbackImageHash : string).

Local Abbreviation Tx := (@Tx LivestreamModel).
Local Abbreviation fillUsers := (@fillUserResponses LivestreamModel fallbackImageHash).

(** X1.  The result of [fillUserResponses] has an entry for every requested
    identifier, whether the store has a row for it or not, and for no other
    key. *)
Theorem user_responses_keys (tx : Tx) (userIDs : list Z) (m : gmap Z User) :
  value (fillUsers tx userIDs) = Ok m →
  ∀ k, is_Some (m !! k) ↔ k ∈ userIDs.
Proof using Type.
  drop_unused.
  intros Hrun k. unfold value, run in Hrun.
  destruct (decide (userIDs = [])) as [->|Hne]; [discriminate|].
  rewrite fillUserResponses_run in Hrun by done.
  destruct (tx_selectUsersIn tx userIDs); [discriminate|].
  destruct (tx_selectThemesIn tx userIDs); [discriminate|].
  destruct (tx_selectIconHashesIn tx userIDs); [discriminate|].
  injection Hrun as <-. unfold user_responses. split.
  - intros Hsome. destruct (decide (k ∈ userIDs)) as [|Hnot]; [done|].
    rewrite index_by_absent in Hsome; [by destruct Hsome|].
    intros x Hx Heq. apply Hnot. by rewrite <- Heq.
  - intros Hin. rewrite index_by_keys by done. by eexists.
Qed.

(** X2.  A requested user for whom the users statement and the themes statement
    answer no row is not an error: the entry built for it has the zero
    identifier, empty names and description, and the zero theme. *)
Theorem missing_rows_give_zero_values (tx : Tx) (userIDs : list Z) (m : gmap Z User) (k : Z) :
  value (fillUsers tx userIDs) = Ok m →
  k ∈ userIDs →
  (∀ userModels row,
     tx_selectUsersIn tx userIDs = inr userModels → row ∈ userModels → UserModel_ID row ≠ k) →
  (∀ themeModels row,
     tx_selectThemesIn tx userIDs = inr themeModels →
     row ∈ themeModels → ThemeModel_UserID row ≠ k) →
  ∃ u, m !! k = Some u
       ∧ User_ID u = 0 ∧ User_Name u = "" ∧ User_DisplayName u = ""
       ∧ User_Description u = "" ∧ User_Theme u = zeroTheme.
Proof using Type.
  drop_unused.
  intros Hrun Hk Hnouser Hnotheme. unfold value, run in Hrun.
  assert (Hids : userIDs ≠ []) by (intros ->; by apply elem_of_nil in Hk).
  rewrite fillUserResponses_run in Hrun by done.
  destruct (tx_selectUsersIn tx userIDs) as [e|userModels]; [discriminate|].
  destruct (tx_selectThemesIn tx userIDs) as [e|themeModels]; [discriminate|].
  destruct (tx_selectIconHashesIn tx userIDs) as [e|iconHashes]; [discriminate|].
  injection Hrun as <-. eexists. split; [by apply index_by_keys|].
  unfold user_response, go_index; simpl.
  rewrite (index_by_absent UserModel_ID), (index_by_absent ThemeModel_UserID).
  - done.
  - intros row Hrow. by apply (Hnotheme themeModels).
  - intros row Hrow. by apply (Hnouser userModels).
Qed.


(** X4.  On a non-empty list of identifiers [fillUserResponses] sends the users,
    themes and icon-hash statements in that order and stops at the first that
    fails: its error is returned unchanged and the later statements are not
    sent. *)
Theorem user_statements_stop_at_first_failure (tx : Tx) (userIDs : list Z) (e : error) :
  userIDs ≠ [] →
  (tx_selectUsersIn tx userIDs = inl e →
     run (fillUsers tx userIDs) = (Err e, [EvQuery (SelectUsersIn userIDs)]))
  ∧ (∀ userModels,
       tx_selectUsersIn tx userIDs = inr userModels →
       tx_selectThemesIn tx userIDs = inl e →
       run (fillUsers tx userIDs)
       = (Err e, [EvQuery (SelectUsersIn userIDs); EvQuery (SelectThemesIn userIDs)]))
  ∧ (∀ userModels themeModels,
       tx_selectUsersIn tx userIDs = inr userModels →
       tx_selectThemesIn tx userIDs = inr themeModels →
       tx_selectIconHashesIn tx userIDs = inl e →
       run (fillUsers tx userIDs) = (Err e, user_statements userIDs)).
Proof using Type.
  drop_unused.
  intros Hne. unfold run. rewrite fillUserResponses_run by done.
  split; [by intros ->|]. split.
  - by intros userModels -> ->.
  - by intros userModels themeModels -> -> ->.
Qed.

End UserResponses.

(** ** The batch reaction assembler *)

Section ReactionResponses.
Context {LivestreamModel Livestream : Type}.
Context (Livestream_ID : Livestream → Z) (zeroLivestream : Livestream).
Context (fallbackImageHash : string).
Context (fillLivestreamResponses :
           @Tx LivestreamModel → list LivestreamModel → Collab (list Livestream)).

Local Abbreviation Tx := (@Tx LivestreamModel).
Local Abbreviation fillReactions :=
  (fillReactionResponses Livestream_ID zeroLivestream fallbackImageHash fillLivestreamResponses).

(** What a batch assembly returns, from the answers of the store. *)
Lemma fillReactionResponses_value (tx : Tx) (rms : list ReactionModel) :
  rms ≠ [] →
  value (fillReactions tx rms) =
    match tx_selectUsersIn tx (collect_ids ReactionModel_UserID rms),
          tx_selectThemesIn tx (collect_ids ReactionModel_UserID rms),
          tx_selectIconHashesIn tx (collect_ids ReactionModel_UserID rms) with
    | inl e, _, _ => Err e
    | inr _, inl e, _ => Err e
    | inr _, inr _, inl e => Err e
    | inr userModels, inr themeModels, inr iconHashes =>
        match tx_selectLivestreamsIn tx (collect_ids ReactionModel_LivestreamID rms) with
        | inl e => Err e
        | inr livestreamModels =>
            match snd (fillLivestreamResponses tx livestreamModels) with
            | inl e => Err e
            | inr livestreamResps =>
                Ok (map (reaction_response zeroLivestream
                           (user_responses fallbackImageHash userModels themeModels iconHashes
                              (collect_ids ReactionModel_UserID rms))
                           (index_by Livestream_ID id livestreamResps)) rms)
            end
        end
    end.
Proof using Type.
  drop_unused.
  intros Hne. unfold value, run.
  assert (Hids : collect_ids ReactionModel_UserID rms ≠ []).
  { rewrite collect_ids_eq. by destruct rms. }
  rewrite fillReactionResponses_run, fillUserResponses_run by done.
  destruct (tx_selectUsersIn tx _); [done|].
  destruct (tx_selectThemesIn tx _); [done|].
  destruct (tx_selectIconHashesIn tx _); [done|].
  destruct (tx_selectLivestreamsIn tx _) as [e|livestreamModels]; [done|].
  by destruct (snd (fillLivestreamResponses tx livestreamModels)).
Qed.

(** A result of the batch assembly is the image of the records under one
    composition, built from one user map and one livestream map. *)
Lemma fillReactionResponses_Ok (tx : Tx) (rms : list ReactionModel) (out : list Reaction) :
  value (fillReactions tx rms) = Ok out →
  ∃ userResps livestreamMap,
    out = map (reaction_response zeroLivestream userResps livestreamMap) rms.
Proof using Type.
  drop_unused.
  destruct (decide (rms = [])) as [->|Hne].
  { intros [= <-]. by exists ∅, ∅. }
  rewrite fillReactionResponses_value by done. intros Hrun.
  repeat case_match; try discriminate. injection Hrun as <-. by eexists _, _.
Qed.


(** X6.  The batch assembly of a non-empty list returns a result exactly when the
    four bulk statements and the livestream hydration all succeed, and the
    result is then the composition of every record, in input order, with the
    user and livestream maps built from their answers: rows that are missing
    never make it fail. *)
Theorem batch_succeeds_iff (tx : Tx) (rms : list ReactionModel) (out : list Reaction) :
  rms ≠ [] →
  value (fillReactions tx rms) = Ok out
  ↔ ∃ userModels themeModels iconHashes livestreamModels livestreamResps,
      tx_selectUsersIn tx (collect_ids ReactionModel_UserID rms) = inr userModels
      ∧ tx_selectThemesIn tx (collect_ids ReactionModel_UserID rms) = inr themeModels
      ∧ tx_selectIconHashesIn tx (collect_ids ReactionModel_UserID rms) = inr iconHashes
      ∧ tx_selectLivestreamsIn tx (collect_ids ReactionModel_LivestreamID rms)
        = inr livestreamModels
      ∧ snd (fillLivestreamResponses tx livestreamModels) = inr livestreamResps
      ∧ out = map (reaction_response zeroLivestream
                     (user_responses fallbackImageHash userModels themeModels iconHashes
                        (collect_ids ReactionModel_UserID rms))
                     (index_by Livestream_ID id livestreamResps)) rms.
Proof using Type.
  drop_unused.
  intros Hne. rewrite fillReactionResponses_value by done. split.
  - intros Hrun. repeat case_match; try discriminate. injection Hrun as <-.
    by eexists _, _, _, _, _.
  - intros (us & ths & hs & lms & lrs & -> & -> & -> & -> & -> & ->). done.
Qed.

(** X7.  The batch assembly never panics of its own (the store and the
    hydration routine answer with a value or an error), and an error it
    returns is the error of one of its four bulk statements or of the
    livestream hydration, unchanged. *)
Theorem batch_failure_is_a_store_failure (tx : Tx) (rms : list ReactionModel) :
  (∀ msg, value (fillReactions tx rms) ≠ Panic msg)
  ∧ ∀ e, value (fillReactions tx rms) = Err e →
      tx_selectUsersIn tx (collect_ids ReactionModel_UserID rms) = inl e
      ∨ tx_selectThemesIn tx (collect_ids ReactionModel_UserID rms) = inl e
      ∨ tx_selectIconHashesIn tx (collect_ids ReactionModel_UserID rms) = inl e
      ∨ tx_selectLivestreamsIn tx (collect_ids ReactionModel_LivestreamID rms) = inl e
      ∨ ∃ livestreamModels,
          tx_selectLivestreamsIn tx (collect_ids ReactionModel_LivestreamID rms)
          = inr livestreamModels
          ∧ snd (fillLivestreamResponses tx livestreamModels) = inl e.
Proof using Type.
  drop_unused.
  destruct (decide (rms = [])) as [->|Hne]; [by split|].
  rewrite fillReactionResponses_value by done.
  split; [intros msg|intros e]; repeat case_match; intros Hrun; simplify_eq; eauto 10.
Qed.

(** X8.  Within one batch, records that reference the same user carry the same
    user object, and records that reference the same livestream the same
    livestream object. *)
Theorem same_key_same_response (tx : Tx) (rms : list ReactionModel) (out : list Reaction)
    (i j : nat) (ri rj : ReactionModel) (oi oj : Reaction) :
  value (fillReactions tx rms) = Ok out →
  rms !! i = Some ri → rms !! j = Some rj →
  out !! i = Some oi → out !! j = Some oj →
  (ReactionModel_UserID ri = ReactionModel_UserID rj → Reaction_User oi = Reaction_User oj)
  ∧ (ReactionModel_LivestreamID ri = ReactionModel_LivestreamID rj →
     Reaction_Livestream oi = Reaction_Livestream oj).
Proof using Type.
  drop_unused.
  intros (userResps & livestreamMap & ->)%fillReactionResponses_Ok Hri Hrj Hoi Hoj.
  rewrite list_lookup_fmap, Hri in Hoi. rewrite list_lookup_fmap, Hrj in Hoj.
  simplify_eq/=. split; by intros ->.
Qed.

(** X9.  A record whose livestream identifier is not among the hydrated livestreams
    does not fail the batch: its reaction carries the zero livestream. *)
Theorem missing_livestream_gives_zero_value (tx : Tx) (rms : list ReactionModel)
    (out : list Reaction) (i : nat) (r : ReactionModel) (o : Reaction) :
  value (fillReactions tx rms) = Ok out →
  rms !! i = Some r → out !! i = Some o →
  (∀ livestreamModels livestreamResps l,
     tx_selectLivestreamsIn tx (collect_ids ReactionModel_LivestreamID rms)
     = inr livestreamModels →
     snd (fillLivestreamResponses tx livestreamModels) = inr livestreamResps →
     l ∈ livestreamResps → Livestream_ID l ≠ ReactionModel_LivestreamID r) →
  Reaction_Livestream o = zeroLivestream.
Proof using Type.
  drop_unused.
  intros Hrun Hr Ho Hmissing.
  assert (Hne : rms ≠ []) by (intros ->; by rewrite lookup_nil in Hr).
  rewrite fillReactionResponses_value in Hrun by done.
  destruct (tx_selectUsersIn tx _); [discriminate|].
  destruct (tx_selectThemesIn tx _); [discriminate|].
  destruct (tx_selectIconHashesIn tx _); [discriminate|].
  destruct (tx_selectLivestreamsIn tx _) as [e|lms] eqn:Hls; [discriminate|].
  destruct (snd (fillLivestreamResponses tx lms)) as [e|lrs] eqn:Hfill; [discriminate|].
  injection Hrun as <-. rewrite list_lookup_fmap, Hr in Ho. simplify_eq/=.
  unfold go_index. rewrite index_by_absent; [done|].
  intros resp Hresp. by apply (Hmissing lms lrs).
Qed.

End ReactionResponses.

(** ** The single reaction assembler and the handlers *)

#[local] Set Warnings "-clear-no-such-hyp".

Section Outcomes.
Context {LivestreamModel Livestream : Type}.
Context (Livestream_ID : Livestream → Z) (zeroLivestream : Livestream).
Context (fallbackImageHash : string).
Context (verifyUserSession : Context → option error).
Context (fillUserResponse : @Tx LivestreamModel → UserModel → Collab User).
Context (fillLivestreamResponse : @Tx LivestreamModel → LivestreamModel → Collab Livestream).
Context (fillLivestreamResponses :
           @Tx LivestreamModel → list LivestreamModel → Collab (list Livestream)).

Local Abbreviation Tx := (@Tx LivestreamModel).
Local Abbreviation DB := (@DB LivestreamModel).
Local Abbreviation fillReaction :=
  (fillReactionResponse fillUserResponse fillLivestreamResponse).
Local Abbreviation fillReactions :=
  (fillReactionResponses Livestream_ID zeroLivestream fallbackImageHash fillLivestreamResponses).
Local Abbreviation getReactions :=
  (getReactionsHandler Livestream_ID zeroLivestream fallbackImageHash
     verifyUserSession fillLivestreamResponses).
Local Abbreviation postReaction :=
  (postReactionHandler verifyUserSession fillUserResponse fillLivestreamResponse).

Lemma queries_app (t1 t2 : list Event) : queries (t1 ++ t2) = queries t1 ++ queries t2.
Proof using Type. drop_unused. apply omap_app. Qed.

Lemma queries_cons (q : Query) (t : list Event) :
  queries (EvQuery q :: t) = q :: queries t.
Proof using Type. drop_unused. reflexivity. Qed.

Lemma queries_nil : queries [] = [].
Proof using Type. drop_unused. reflexivity. Qed.

Lemma queries_cons_begin (opened : bool) (t : list Event) :
  queries (EvBegin opened :: t) = queries t.
Proof using Type. drop_unused. reflexivity. Qed.

Lemma queries_cons_commit (ok : bool) (t : list Event) :
  queries (EvCommit ok :: t) = queries t.
Proof using Type. drop_unused. reflexivity. Qed.

Lemma queries_cons_rollback (t : list Event) : queries (EvRollback :: t) = queries t.
Proof using Type. drop_unused. reflexivity. Qed.

Lemma queries_fmap (qs : list Query) : queries (EvQuery <$> qs) = qs.
Proof using Type. drop_unused. induction qs as [|q qs IH]; [done|]. by rewrite fmap_cons, queries_cons, IH. Qed.

Ltac queries_in H :=
  cbv zeta in H; cbn [fst snd app] in H;
  repeat first
    [ rewrite queries_cons in H | rewrite queries_app in H
    | rewrite queries_external in H | rewrite queries_nil in H
    | rewrite queries_cons_begin in H | rewrite queries_cons_commit in H
    | rewrite queries_cons_rollback in H | rewrite queries_fmap in H ].

Lemma fillReactionResponse_run (tx : Tx) (rm : ReactionModel) (t : list Event) :
  fillReaction tx rm t =
    match tx_getUser tx (ReactionModel_UserID rm) with
    | inl e => (Err e, t ++ [EvQuery (GetUser (ReactionModel_UserID rm))])
    | inr userModel =>
        let t1 := t ++ [EvQuery (GetUser (ReactionModel_UserID rm))]
                    ++ external (fst (fillUserResponse tx userModel)) in
        match snd (fillUserResponse tx userModel) with
        | inl e => (Err e, t1)
        | inr user =>
            match tx_getLivestream tx (ReactionModel_LivestreamID rm) with
            | inl e => (Err e, t1 ++ [EvQuery (GetLivestream (ReactionModel_LivestreamID rm))])
            | inr livestreamModel =>
                let t2 := t1 ++ [EvQuery (GetLivestream (ReactionModel_LivestreamID rm))]
                            ++ external (fst (fillLivestreamResponse tx livestreamModel)) in
                match snd (fillLivestreamResponse tx livestreamModel) with
                | inl e => (Err e, t2)
                | inr livestream =>
                    (Ok (mkReaction (ReactionModel_ID rm) (ReactionModel_EmojiName rm)
                           user livestream (ReactionModel_CreatedAt rm)), t2)
                end
            end
        end
    end.
Proof using Type.
  drop_unused.
  unfold fillReactionResponse, send, call, bind, emit, lift, fail, ret, external. simpl.
  destruct (tx_getUser tx _) as [e|userModel]; simpl; [done|].
  destruct (snd (fillUserResponse tx userModel)); simpl; rewrite <- ?app_assoc; [done|].
  destruct (tx_getLivestream tx _) as [e|livestreamModel]; simpl;
    rewrite <- ?app_assoc; simpl; [done|].
  destruct (snd (fillLivestreamResponse tx livestreamModel)); simpl;
    by rewrite <- ?app_assoc.
Qed.

(** X10.  [fillReactionResponse] returns a reaction exactly when both lookups find
    a row and both hydrations succeed; the reaction then carries the id, emoji
    name and creation time of the record, and the hydrated user and
    livestream. *)
Theorem single_assembly_succeeds_iff (tx : Tx) (rm : ReactionModel) (o : Reaction) :
  value (fillReaction tx rm) = Ok o
  ↔ ∃ userModel user livestreamModel livestream,
      tx_getUser tx (ReactionModel_UserID rm) = inr userModel
      ∧ snd (fillUserResponse tx userModel) = inr user
      ∧ tx_getLivestream tx (ReactionModel_LivestreamID rm) = inr livestreamModel
      ∧ snd (fillLivestreamResponse tx livestreamModel) = inr livestream
      ∧ o = mkReaction (ReactionModel_ID rm) (ReactionModel_EmojiName rm)
              user livestream (ReactionModel_CreatedAt rm).
Proof using Type.
  drop_unused.
  unfold value, run. rewrite fillReactionResponse_run. split.
  - intros Hrun. repeat case_match; simplify_eq/=. by eexists _, _, _, _.
  - intros (um & u & lm & l & -> & Hu & -> & Hl & ->). simpl. by rewrite Hu, Hl.
Qed.

(** X11.  [fillReactionResponse] never panics; an error it returns is the error of
    the user lookup, of the user hydration, of the livestream lookup or of the
    livestream hydration, unchanged (so a lookup that matches no row gives
    [ErrNoRows] itself); and the livestream lookup is sent only once the user
    is found and hydrated. *)
Theorem single_assembly_failure (tx : Tx) (rm : ReactionModel) :
  (∀ msg, value (fillReaction tx rm) ≠ Panic msg)
  ∧ (∀ e, value (fillReaction tx rm) = Err e →
       tx_getUser tx (ReactionModel_UserID rm) = inl e
       ∨ (∃ userModel,
            tx_getUser tx (ReactionModel_UserID rm) = inr userModel
            ∧ snd (fillUserResponse tx userModel) = inl e)
       ∨ tx_getLivestream tx (ReactionModel_LivestreamID rm) = inl e
       ∨ ∃ livestreamModel,
           tx_getLivestream tx (ReactionModel_LivestreamID rm) = inr livestreamModel
           ∧ snd (fillLivestreamResponse tx livestreamModel) = inl e)
  ∧ (∀ k, GetLivestream k ∈ queries (trace (fillReaction tx rm)) →
       k = ReactionModel_LivestreamID rm
       ∧ ∃ userModel user,
           tx_getUser tx (ReactionModel_UserID rm) = inr userModel
           ∧ snd (fillUserResponse tx userModel) = inr user).
Proof using Type.
  drop_unused.
  unfold value, trace, run. rewrite fillReactionResponse_run.
  split; [|split].
  - intros msg. by repeat case_match.
  - intros e Hrun. repeat case_match; simplify_eq/=; eauto 10.
  - intros k Hin. split.
    + repeat case_match; queries_in Hin; set_unfold; naive_solver.
    + destruct (tx_getUser tx _) as [e|userModel];
        [queries_in Hin; set_unfold; naive_solver|].
      destruct (snd (fillUserResponse tx userModel)) as [e|user] eqn:Huser; [|by eauto].
      queries_in Hin. set_unfold. naive_solver.
Qed.

(** The run of the list handler, case by case. *)
Lemma getReactionsHandler_run (dbConn : DB) (c : Context) :
  run (getReactions dbConn c) =
    match verifyUserSession c with
    | Some err => (Err err, [])
    | None =>
    match Atoi (Param_livestream_id c) with
    | None => (Err (HTTPError StatusBadRequest "livestream_id in path must be integer"), [])
    | Some livestreamID =>
    match db_begin dbConn with
    | inl err =>
        (Err (HTTPError StatusInternalServerError
                ("failed to begin transaction: " +:+ Error err)), [EvBegin false])
    | inr tx =>
    let select (limit : option Z) :=
      match tx_selectReactions tx livestreamID limit with
      | inl _ =>
          (Err (HTTPError StatusNotFound "failed to get reactions"),
           [EvBegin true; EvQuery (SelectReactions livestreamID limit); EvRollback])
      | inr reactionModels =>
          match fillReactions tx reactionModels
                  [EvBegin true; EvQuery (SelectReactions livestreamID limit)] with
          | (Ok reactions, t) =>
              match tx_commit tx with
              | Some err =>
                  (Err (HTTPError StatusInternalServerError
                          ("failed to commit: " +:+ Error err)),
                   t ++ [EvCommit false; EvRollback])
              | None => (Ok (JSON StatusOK (Reactions reactions)),
                         t ++ [EvCommit true; EvRollback])
              end
          | (Err err, t) =>
              (Err (HTTPError StatusInternalServerError
                      ("failed to fill reactions: " +:+ Error err)), t ++ [EvRollback])
          | (Panic msg, t) => (Panic msg, t ++ [EvRollback])
          end
      end in
    match requested_limit c with
    | InvalidLimit =>
        (Err (HTTPError StatusBadRequest "limit query parameter must be integer"),
         [EvBegin true; EvRollback])
    | NoLimit => select None
    | LimitOf n => select (Some n)
    end end end end.
Proof using Type.
  drop_unused.
  unfold run, getReactionsHandler, requested_limit. unfold bind at 1.
  destruct (verifyUserSession c); simpl; [done|].
  destruct (Atoi (Param_livestream_id c)) as [livestreamID|]; [|done].
  unfold bind at 1, or_return at 1, BeginTxx.
  destruct (db_begin dbConn) as [e|tx]; simpl; [done|].
  unfold defer, Rollback, emit, bind at 1.
  assert (Hselect : ∀ limit,
    (let '(r, t') :=
       (let* reactionModels :=
          or_return (send (SelectReactions livestreamID limit)
                       (tx_selectReactions tx livestreamID limit))
            (λ _, HTTPError StatusNotFound "failed to get reactions") in
        let* reactions := or_return (fillReactions tx reactionModels)
          (λ err, HTTPError StatusInternalServerError
                    ("failed to fill reactions: " +:+ Error err)) in
        let* _ := or_return (Commit tx)
          (λ err, HTTPError StatusInternalServerError ("failed to commit: " +:+ Error err)) in
        ret (JSON StatusOK (Reactions reactions))) [EvBegin true] in
     (r, snd (Ok (), t' ++ [EvRollback])))
    = match tx_selectReactions tx livestreamID limit with
      | inl _ =>
          (Err (HTTPError StatusNotFound "failed to get reactions"),
           [EvBegin true; EvQuery (SelectReactions livestreamID limit); EvRollback])
      | inr reactionModels =>
          match fillReactions tx reactionModels
                  [EvBegin true; EvQuery (SelectReactions livestreamID limit)] with
          | (Ok reactions, t) =>
              match tx_commit tx with
              | Some err =>
                  (Err (HTTPError StatusInternalServerError
                          ("failed to commit: " +:+ Error err)),
                   t ++ [EvCommit false; EvRollback])
              | None => (Ok (JSON StatusOK (Reactions reactions)),
                         t ++ [EvCommit true; EvRollback])
              end
          | (Err err, t) =>
              (Err (HTTPError StatusInternalServerError
                      ("failed to fill reactions: " +:+ Error err)), t ++ [EvRollback])
          | (Panic msg, t) => (Panic msg, t ++ [EvRollback])
          end
      end).
  { intros limit. unfold bind at 1, or_return at 1, send, bind at 1, emit, lift. simpl.
    destruct (tx_selectReactions tx livestreamID limit) as [e|rms]; simpl; [done|].
    unfold bind at 1, or_return at 1.
    destruct (fillReactions tx rms _) as [[out|e|msg] t]; simpl; [|done|done].
    unfold bind, or_return, Commit, emit, fail, ret.
    destruct (tx_commit tx); simpl; by rewrite <- app_assoc. }
  destruct (bool_decide (QueryParam_limit c ≠ "")); [|apply Hselect].
  destruct (Atoi (QueryParam_limit c)); [apply Hselect | done].
Qed.

(** The run of the post handler, case by case. *)
Lemma postReactionHandler_run (dbConn : DB) (c : Context) :
  run (postReaction dbConn c) =
    match Atoi (Param_livestream_id c) with
    | None => (Err (HTTPError StatusBadRequest "livestream_id in path must be integer"), [])
    | Some livestreamID =>
    match verifyUserSession c with
    | Some err => (Err err, [])
    | None =>
    match Session_user_id c with
    | None => (Panic "interface conversion: interface {} is not int64", [])
    | Some userID =>
    match Decode (Body c) with
    | inl _ =>
        (Err (HTTPError StatusBadRequest "failed to decode the request body as json"), [])
    | inr req =>
    match db_begin dbConn with
    | inl err =>
        (Err (HTTPError StatusInternalServerError
                ("failed to begin transaction: " +:+ Error err)), [EvBegin false])
    | inr tx =>
    match req with
    | None =>
        (Panic "runtime error: invalid memory address or nil pointer dereference",
         [EvBegin true; EvRollback])
    | Some r =>
    let row (id : Z) :=
      mkReactionModel id (PostReactionRequest_EmojiName r) userID livestreamID (Now c) in
    let opened := [EvBegin true; EvQuery (InsertReaction (row 0))] in
    match tx_insertReaction tx (row 0) with
    | inl err =>
        (Err (HTTPError StatusInternalServerError
                ("failed to insert reaction: " +:+ Error err)), opened ++ [EvRollback])
    | inr (inl err) =>
        (Err (HTTPError StatusInternalServerError
                ("failed to get last inserted reaction id: " +:+ Error err)),
         opened ++ [EvRollback])
    | inr (inr reactionID) =>
        match fillReaction tx (row reactionID) opened with
        | (Ok reaction, t) =>
            match tx_commit tx with
            | Some err =>
                (Err (HTTPError StatusInternalServerError
                        ("failed to commit: " +:+ Error err)),
                 t ++ [EvCommit false; EvRollback])
            | None => (Ok (JSON StatusCreated (OneReaction reaction)),
                       t ++ [EvCommit true; EvRollback])
            end
        | (Err err, t) =>
            (Err (HTTPError StatusInternalServerError
                    ("failed to fill reaction: " +:+ Error err)), t ++ [EvRollback])
        | (Panic msg, t) => (Panic msg, t ++ [EvRollback])
        end
    end end end end end end end.
Proof using Type.
  drop_unused.
  unfold run, postReactionHandler.
  destruct (Atoi (Param_livestream_id c)) as [livestreamID|]; [|done].
  unfold bind at 1.
  destruct (verifyUserSession c); simpl; [done|].
  unfold bind at 1.
  destruct (Session_user_id c) as [userID|]; simpl; [|done].
  unfold bind at 1, or_return at 1.
  destruct (Decode (Body c)) as [e|req]; simpl; [done|].
  unfold bind at 1, or_return at 1, BeginTxx.
  destruct (db_begin dbConn) as [e|tx]; simpl; [done|].
  unfold defer, Rollback, emit, bind at 1.
  destruct req as [r|]; simpl; [|done].
  unfold bind at 1, or_return at 1, send, bind at 1. simpl.
  destruct (tx_insertReaction tx _) as [e|[e|reactionID]]; simpl; [done|done|].
  unfold bind, or_return, Commit, emit, fail, ret.
  destruct (fillReaction tx _ _) as [[reaction|e|msg] t]; simpl; [|done|done].
  destruct (tx_commit tx); simpl; by rewrite <- app_assoc.
Qed.

Lemma own_external (qs : list Query) (sqls : list string) :
  length (filter (λ q, is_external q = false) (qs ++ (External <$> sqls)))
  = length (filter (λ q, is_external q = false) qs).
Proof using Type.
  drop_unused.
  rewrite filter_app, length_app.
  replace (filter (λ q, is_external q = false) (External <$> sqls)) with (@nil Query);
    [simpl; lia|].
  induction sqls as [|sql sqls IH]; [done|]. by rewrite fmap_cons, filter_cons_False.
Qed.

(** The assemblers only add statements to the trace, they do not panic, and
    what they return does not depend on the trace they start from; the batch
    assembler sends at most four statements of its own, the single one at most
    two, none of them an insert. *)
Lemma fillReactionResponses_events (tx : Tx) (rms : list ReactionModel) (t : list Event) :
  ∃ qs, fillReactions tx rms t = (value (fillReactions tx rms), t ++ (EvQuery <$> qs))
        ∧ (∀ msg, value (fillReactions tx rms) ≠ Panic msg)
        ∧ (length (filter (λ q, is_external q = false) qs) ≤ 4)%nat.
Proof using Type.
  drop_unused.
  unfold value, run. destruct (decide (rms = [])) as [->|Hne].
  { exists []. split; [|split; [done|simpl; lia]]. cbn. by rewrite app_nil_r. }
  assert (Hids : collect_ids ReactionModel_UserID rms ≠ []).
  { rewrite collect_ids_eq. by destruct rms. }
  rewrite !fillReactionResponses_run, !fillUserResponses_run by done.
  set (uids := collect_ids ReactionModel_UserID rms).
  set (lids := collect_ids ReactionModel_LivestreamID rms).
  destruct (tx_selectUsersIn tx uids);
    [exists [SelectUsersIn uids]; repeat split; [done|simpl; lia]|].
  destruct (tx_selectThemesIn tx uids);
    [exists [SelectUsersIn uids; SelectThemesIn uids]; repeat split; [done|simpl; lia]|].
  destruct (tx_selectIconHashesIn tx uids);
    [exists [SelectUsersIn uids; SelectThemesIn uids; SelectIconHashesIn uids];
     repeat split; [done|simpl; lia]|].
  destruct (tx_selectLivestreamsIn tx lids) as [e|lms].
  { exists [SelectUsersIn uids; SelectThemesIn uids; SelectIconHashesIn uids;
            SelectLivestreamsIn lids].
    split; [by rewrite <- app_assoc|]. split; [done|simpl; lia]. }
  exists ([SelectUsersIn uids; SelectThemesIn uids; SelectIconHashesIn uids;
           SelectLivestreamsIn lids]
          ++ (External <$> fst (fillLivestreamResponses tx lms))).
  rewrite own_external, fmap_app, <- list_fmap_compose.
  destruct (snd (fillLivestreamResponses tx lms)); cbn zeta;
    (split; [by rewrite <- app_assoc | split; [done|simpl; lia]]).
Qed.

Lemma fillReactionResponse_events (tx : Tx) (rm : ReactionModel) (t : list Event) :
  ∃ qs, fillReaction tx rm t = (value (fillReaction tx rm), t ++ (EvQuery <$> qs))
        ∧ (∀ msg, value (fillReaction tx rm) ≠ Panic msg)
        ∧ (∀ r, InsertReaction r ∉ qs)
        ∧ (length (filter (λ q, is_external q = false) qs) ≤ 2)%nat.
Proof using Type.
  drop_unused.
  unfold value, run. rewrite !fillReactionResponse_run. unfold external.
  destruct (tx_getUser tx _) as [e|um].
  { exists [GetUser (ReactionModel_UserID rm)].
    repeat split; [done|set_solver|simpl; lia]. }
  destruct (snd (fillUserResponse tx um)); cbn zeta.
  { exists ([GetUser (ReactionModel_UserID rm)] ++ (External <$> fst (fillUserResponse tx um))).
    rewrite own_external, fmap_app, <- list_fmap_compose.
    repeat split; [done|set_solver|simpl; lia]. }
  destruct (tx_getLivestream tx _) as [e|lm].
  { exists (([GetUser (ReactionModel_UserID rm)] ++ (External <$> fst (fillUserResponse tx um)))
            ++ [GetLivestream (ReactionModel_LivestreamID rm)]).
    rewrite filter_app, length_app, own_external, !fmap_app, <- list_fmap_compose,
      <- !app_assoc.
    repeat split; [done|set_solver|simpl; lia]. }
  exists ((([GetUser (ReactionModel_UserID rm)] ++ (External <$> fst (fillUserResponse tx um)))
           ++ [GetLivestream (ReactionModel_LivestreamID rm)])
          ++ (External <$> fst (fillLivestreamResponse tx lm))).
  rewrite own_external, filter_app, length_app, own_external, !fmap_app,
    <- !list_fmap_compose.
  destruct (snd (fillLivestreamResponse tx lm)); rewrite <- !app_assoc;
    (repeat split; [done|set_solver|simpl; lia]).
Qed.

Ltac use_events :=
  repeat match goal with
  | H : fillReactionResponses _ _ _ _ ?tx ?rms ?t = (_, _) |- _ =>
      let qs := fresh "qs" in
      let Hev := fresh "Hev" in
      let Hnopanic := fresh "Hnopanic" in
      let Hown := fresh "Hown" in
      destruct (fillReactionResponses_events tx rms t) as (qs & Hev & Hnopanic & Hown);
      rewrite Hev in H; clear Hev; injection H as H ?; subst
  | H : fillReactionResponse _ _ ?tx ?rm ?t = (_, _) |- _ =>
      let qs := fresh "qs" in
      let Hev := fresh "Hev" in
      let Hnopanic := fresh "Hnopanic" in
      let Hnoinsert := fresh "Hnoinsert" in
      let Hown := fresh "Hown" in
      destruct (fillReactionResponse_events tx rm t)
        as (qs & Hev & Hnopanic & Hnoinsert & Hown);
      rewrite Hev in H; clear Hev; injection H as H ?; subst
  end.

Ltac one_transaction :=
  first
    [ by exists [], []; auto
    | by eexists [_], []; auto
    | by eexists (_ :: _), []; split; [rewrite fmap_cons; reflexivity | auto]
    | by eexists (_ :: _), [_]; split; [rewrite fmap_cons; reflexivity | eauto] ].

(** X12.  The list handler refuses a request before it opens a transaction, and
    sends nothing, when the session is not verified - the error of the session
    check is returned as it is, whatever the path - and, the session verified,
    when the livestream id of the path is not an integer. *)
Theorem get_refused_before_transaction (dbConn : DB) (c : Context) :
  (∀ e, verifyUserSession c = Some e → run (getReactions dbConn c) = (Err e, []))
  ∧ (verifyUserSession c = None →
     Atoi (Param_livestream_id c) = None →
     run (getReactions dbConn c)
     = (Err (HTTPError StatusBadRequest "livestream_id in path must be integer"), [])).
Proof using Type.
  drop_unused.
  rewrite getReactionsHandler_run. split.
  - by intros e ->.
  - by intros -> ->.
Qed.

(** X13.  The post handler checks the path before the session: a non-integer
    livestream id is a bad request even without a session; then the error of
    the session check is returned as it is; then a body that does not decode
    is a bad request.  In the three cases no transaction is opened and nothing
    is sent. *)
Theorem post_refused_before_transaction (dbConn : DB) (c : Context) :
  (Atoi (Param_livestream_id c) = None →
     run (postReaction dbConn c)
     = (Err (HTTPError StatusBadRequest "livestream_id in path must be integer"), []))
  ∧ (∀ livestreamID e,
       Atoi (Param_livestream_id c) = Some livestreamID →
       verifyUserSession c = Some e →
       run (postReaction dbConn c) = (Err e, []))
  ∧ (∀ livestreamID userID e,
       Atoi (Param_livestream_id c) = Some livestreamID →
       verifyUserSession c = None →
       Session_user_id c = Some userID →
       Decode (Body c) = inl e →
       run (postReaction dbConn c)
       = (Err (HTTPError StatusBadRequest "failed to decode the request body as json"), [])).
Proof using Type.
  drop_unused.
  rewrite postReactionHandler_run. split; [by intros ->|]. split.
  - by intros livestreamID e -> ->.
  - by intros livestreamID userID e -> -> -> ->.
Qed.

(** X14.  When [BeginTxx] fails, both handlers answer with the internal-server-error
    status and the cause, send no statement and call no rollback. *)
Theorem begin_failure (dbConn : DB) (c : Context) (livestreamID : Z) (e : error) :
  Atoi (Param_livestream_id c) = Some livestreamID →
  verifyUserSession c = None →
  db_begin dbConn = inl e →
  run (getReactions dbConn c)
  = (Err (HTTPError StatusInternalServerError ("failed to begin transaction: " +:+ Error e)),
     [EvBegin false])
  ∧ (∀ userID req,
       Session_user_id c = Some userID →
       Decode (Body c) = inr req →
       run (postReaction dbConn c)
       = (Err (HTTPError StatusInternalServerError
                 ("failed to begin transaction: " +:+ Error e)),
          [EvBegin false])).
Proof using Type.
  drop_unused.
  intros Hpath Hsession Hbegin.
  rewrite getReactionsHandler_run, postReactionHandler_run, Hpath, Hsession, Hbegin.
  split; [done|]. by intros userID req -> ->.
Qed.

(** X15.  Every run of a handler is either refused before [BeginTxx], or a failed
    begin, or one transaction: the begin, then statements only, then at most
    one commit, then the rollback.  No statement is sent outside a
    transaction, and none after the commit. *)
Theorem handlers_run_one_transaction (dbConn : DB) (c : Context) :
  (trace (getReactions dbConn c) = [] ∨ trace (getReactions dbConn c) = [EvBegin false]
   ∨ one_transaction (trace (getReactions dbConn c)))
  ∧ (trace (postReaction dbConn c) = [] ∨ trace (postReaction dbConn c) = [EvBegin false]
     ∨ one_transaction (trace (postReaction dbConn c))).
Proof using Type.
  drop_unused.
  unfold trace, one_transaction.
  rewrite getReactionsHandler_run, postReactionHandler_run. cbv zeta. split.
  - repeat case_match; use_events; simpl; auto; right; right.
    all: one_transaction.
  - repeat case_match; use_events; simpl; auto; right; right.
    all: one_transaction.
Qed.


(** X17.  A commit that fails makes the handler answer with the
    internal-server-error status and the cause of the failure. *)
Theorem failed_commit_is_internal_error (dbConn : DB) (c : Context) :
  (EvCommit false ∈ trace (getReactions dbConn c) →
     ∃ tx e, db_begin dbConn = inr tx ∧ tx_commit tx = Some e
       ∧ value (getReactions dbConn c)
         = Err (HTTPError StatusInternalServerError ("failed to commit: " +:+ Error e)))
  ∧ (EvCommit false ∈ trace (postReaction dbConn c) →
     ∃ tx e, db_begin dbConn = inr tx ∧ tx_commit tx = Some e
       ∧ value (postReaction dbConn c)
         = Err (HTTPError StatusInternalServerError ("failed to commit: " +:+ Error e))).
Proof using Type.
  drop_unused.
  unfold value, trace.
  rewrite getReactionsHandler_run, postReactionHandler_run. cbv zeta.
  split; repeat case_match; use_events; simpl; intros Hin;
    try (by eexists _, _); set_unfold; naive_solver.
Qed.



(** X20.  The post handler panics in two cases only: the session holds no int64 user
    id although it was verified, or the body decoded to a nil request (the
    JSON literal null). *)
Theorem post_panics (dbConn : DB) (c : Context) (msg : string) :
  value (postReaction dbConn c) = Panic msg →
  verifyUserSession c = None
  ∧ (Session_user_id c = None ∨ Decode (Body c) = inr None).
Proof using Type.
  drop_unused.
  unfold value. rewrite postReactionHandler_run. cbv zeta.
  repeat case_match; use_events; simpl; intros Hrun; simplify_eq; auto; naive_solver.
Qed.

(** X21.  When the store answers no reaction row, the list handler sends the
    reactions statement only - no bulk statement - commits, and answers 200
    with an empty list. *)
Theorem get_empty_list (dbConn : DB) (c : Context) (tx : Tx) (livestreamID : Z)
    (limit : option Z) :
  verifyUserSession c = None →
  Atoi (Param_livestream_id c) = Some livestreamID →
  db_begin dbConn = inr tx →
  limit_argument (requested_limit c) = Some limit →
  tx_selectReactions tx livestreamID limit = inr [] →
  tx_commit tx = None →
  run (getReactions dbConn c)
  = (Ok (JSON StatusOK (Reactions [])),
     [EvBegin true; EvQuery (SelectReactions livestreamID limit); EvCommit true; EvRollback]).
Proof using Type.
  drop_unused.
  intros Hsession Hpath Hbegin Hlimit Hselect Hcommit.
  rewrite getReactionsHandler_run, Hsession, Hpath, Hbegin. cbv zeta.
  destruct (requested_limit c); simplify_eq/=; by rewrite Hselect, Hcommit.
Qed.

(** X22.  A response of the list handler has status 200 and lists one reaction per
    row that the store answered to the reactions statement, in the order of
    the store, each with the id, emoji name and creation time of its row. *)
Theorem get_response_mirrors_rows (dbConn : DB) (c : Context) (resp : Response) :
  value (getReactions dbConn c) = Ok resp →
  ∃ tx livestreamID limit reactionModels reactions,
    db_begin dbConn = inr tx
    ∧ Atoi (Param_livestream_id c) = Some livestreamID
    ∧ limit_argument (requested_limit c) = Some limit
    ∧ tx_selectReactions tx livestreamID limit = inr reactionModels
    ∧ resp = JSON StatusOK (Reactions reactions)
    ∧ map Reaction_ID reactions = map ReactionModel_ID reactionModels
    ∧ map Reaction_EmojiName reactions = map ReactionModel_EmojiName reactionModels
    ∧ map Reaction_CreatedAt reactions = map ReactionModel_CreatedAt reactionModels.
Proof using Type.
  drop_unused.
  unfold value. rewrite getReactionsHandler_run. cbv zeta.
  repeat case_match; use_events; simpl; intros Hrun; simplify_eq.
  all: match goal with
       | H : value (fillReactionResponses _ _ _ _ _ _) = Ok _ |- _ =>
           apply fillReactionResponses_Ok in H as (userResps & livestreamMap & ->)
       end.
  all: eexists _, _, _, _, _; repeat split; try eassumption;
         rewrite ?H2; try reflexivity; by rewrite <- list_fmap_compose.
Qed.

(** X23.  The list handler does not validate an integer [limit]: zero and negative
    values are sent to the store as they are, in the first statement of the
    transaction; without a [limit] the statement has none. *)
Theorem get_limit_forwarded (dbConn : DB) (c : Context) (tx : Tx) (livestreamID : Z)
    (limit : option Z) :
  verifyUserSession c = None →
  Atoi (Param_livestream_id c) = Some livestreamID →
  db_begin dbConn = inr tx →
  limit_argument (requested_limit c) = Some limit →
  head (queries (trace (getReactions dbConn c))) = Some (SelectReactions livestreamID limit).
Proof using Type.
  drop_unused.
  intros Hsession Hpath Hbegin Hlimit. unfold trace.
  rewrite getReactionsHandler_run, Hsession, Hpath, Hbegin. cbv zeta.
  destruct (requested_limit c); simplify_eq/=; repeat case_match; use_events; done.
Qed.

Lemma fillReactionResponse_fields (tx : Tx) (rm : ReactionModel) (o : Reaction) :
  value (fillReaction tx rm) = Ok o →
  Reaction_ID o = ReactionModel_ID rm
  ∧ Reaction_EmojiName o = ReactionModel_EmojiName rm
  ∧ Reaction_CreatedAt o = ReactionModel_CreatedAt rm.
Proof using Type.
  drop_unused.
  unfold value, run. rewrite fillReactionResponse_run.
  intros Hrun. repeat case_match; by simplify_eq/=.
Qed.

(** X24.  A response of the post handler has status 201 and carries the reaction
    assembled from the inserted row: the id the store assigned, the emoji name
    of the request, the current time, and the hydrated user and livestream. *)
Theorem post_created (dbConn : DB) (c : Context) (resp : Response) :
  value (postReaction dbConn c) = Ok resp →
  ∃ tx livestreamID userID req reactionID reaction,
    db_begin dbConn = inr tx
    ∧ Atoi (Param_livestream_id c) = Some livestreamID
    ∧ Session_user_id c = Some userID
    ∧ Decode (Body c) = inr (Some req)
    ∧ tx_insertReaction tx
        (mkReactionModel 0 (PostReactionRequest_EmojiName req) userID livestreamID (Now c))
      = inr (inr reactionID)
    ∧ value (fillReaction tx
               (mkReactionModel reactionID (PostReactionRequest_EmojiName req)
                  userID livestreamID (Now c))) = Ok reaction
    ∧ resp = JSON StatusCreated (OneReaction reaction)
    ∧ Reaction_ID reaction = reactionID
    ∧ Reaction_EmojiName reaction = PostReactionRequest_EmojiName req
    ∧ Reaction_CreatedAt reaction = Now c.
Proof using Type.
  drop_unused.
  unfold value at 1. rewrite postReactionHandler_run. cbv zeta.
  repeat case_match; use_events; simpl; intros Hrun; simplify_eq.
  match goal with
  | Hins : tx_insertReaction ?tx (mkReactionModel 0 _ ?userID ?livestreamID _)
           = inr (inr ?reactionID),
    Hfill : value (fillReactionResponse _ _ ?tx ?rm) = Ok ?reaction |- _ =>
      destruct (fillReactionResponse_fields tx rm reaction Hfill) as (Hid & Hname & Htime);
      exists tx, livestreamID, userID, p, reactionID, reaction
  end.
  by repeat split.
Qed.

(** X25.  The row the post handler inserts takes its user from the session and its
    livestream from the path, never from the body; its emoji name is the one
    of the body, not validated, its time the current time, and its id is left
    to the store. *)
Theorem post_inserted_row (dbConn : DB) (c : Context) (r : ReactionModel) :
  InsertReaction r ∈ queries (trace (postReaction dbConn c)) →
  ∃ livestreamID userID req,
    Atoi (Param_livestream_id c) = Some livestreamID
    ∧ Session_user_id c = Some userID
    ∧ Decode (Body c) = inr (Some req)
    ∧ r = mkReactionModel 0 (PostReactionRequest_EmojiName req) userID livestreamID (Now c).
Proof using Type.
  drop_unused.
  unfold trace. rewrite postReactionHandler_run. cbv zeta.
  repeat case_match; use_events; intros Hin; queries_in Hin;
    try (by apply elem_of_nil in Hin).
  all: apply elem_of_cons in Hin as [[= ->]|Hin]; [by eexists _, _, _|].
  all: rewrite ?app_nil_r in Hin.
  all: first
    [ by apply elem_of_nil in Hin
    | match goal with Hno : ∀ x, InsertReaction x ∉ _ |- _ => by apply Hno in Hin end ].
Qed.

(** X26.  When the insert fails, or the store cannot tell the id it assigned, the
    post handler answers with the internal-server-error status and the cause,
    and sends no lookup: the insert is the only statement of the transaction. *)
Theorem post_insert_failure (dbConn : DB) (c : Context) (tx : Tx)
    (livestreamID userID : Z) (req : PostReactionRequest) (e : error) :
  Atoi (Param_livestream_id c) = Some livestreamID →
  verifyUserSession c = None →
  Session_user_id c = Some userID →
  Decode (Body c) = inr (Some req) →
  db_begin dbConn = inr tx →
  (tx_insertReaction tx
     (mkReactionModel 0 (PostReactionRequest_EmojiName req) userID livestreamID (Now c))
   = inl e →
   run (postReaction dbConn c)
   = (Err (HTTPError StatusInternalServerError ("failed to insert reaction: " +:+ Error e)),
      [EvBegin true;
       EvQuery (InsertReaction
                  (mkReactionModel 0 (PostReactionRequest_EmojiName req)
                     userID livestreamID (Now c)));
       EvRollback]))
  ∧ (tx_insertReaction tx
       (mkReactionModel 0 (PostReactionRequest_EmojiName req) userID livestreamID (Now c))
     = inr (inl e) →
     run (postReaction dbConn c)
     = (Err (HTTPError StatusInternalServerError
               ("failed to get last inserted reaction id: " +:+ Error e)),
        [EvBegin true;
         EvQuery (InsertReaction
                    (mkReactionModel 0 (PostReactionRequest_EmojiName req)
                       userID livestreamID (Now c)));
         EvRollback])).
Proof using Type.
  drop_unused.
  intros Hpath Hsession Huser Hdecode Hbegin.
  rewrite postReactionHandler_run, Hpath, Hsession, Huser, Hdecode, Hbegin. cbv zeta.
  split; by intros ->.
Qed.

(** X27.  The emoji name is taken from the body as it is: for every string [s], the
    empty one included, a body whose only member is [emoji_name] with the
    string [s] makes the post handler insert a row with the emoji name [s]. *)
Theorem post_emoji_verbatim (dbConn : DB) (c : Context) (tx : Tx)
    (livestreamID userID : Z) (s : string) :
  Body c = Some (JObject [("emoji_name", JString s)]) →
  Atoi (Param_livestream_id c) = Some livestreamID →
  verifyUserSession c = None →
  Session_user_id c = Some userID →
  db_begin dbConn = inr tx →
  head (queries (trace (postReaction dbConn c)))
  = Some (InsertReaction (mkReactionModel 0 s userID livestreamID (Now c))).
Proof using Type.
  drop_unused.
  intros Hbody Hpath Hsession Huser Hbegin. unfold trace.
  rewrite postReactionHandler_run, Hpath, Hsession, Huser, Hbody, Hbegin. cbv zeta.
  change (Decode (Some (JObject [("emoji_name", JString s)])))
    with (@inr error _ (Some (mkPostReactionRequest s))).
  cbn match. repeat case_match; use_events; done.
Qed.

Lemma own_statements_cons (ev : Event) (t : list Event) :
  own_statements (ev :: t)
  = ((match ev with
      | EvQuery q => if is_external q then 0 else 1
      | _ => 0
      end) + own_statements t)%nat.
Proof using Type.
  drop_unused.
  unfold own_statements. destruct ev as [b|q|b|]; try reflexivity.
  rewrite queries_cons. by destruct q.
Qed.

Lemma own_statements_app (t1 t2 : list Event) :
  own_statements (t1 ++ t2) = (own_statements t1 + own_statements t2)%nat.
Proof using Type. drop_unused. unfold own_statements. by rewrite queries_app, filter_app, length_app. Qed.

Lemma own_statements_fmap (qs : list Query) :
  own_statements (EvQuery <$> qs) = length (filter (λ q, is_external q = false) qs).
Proof using Type. drop_unused. unfold own_statements. by rewrite queries_fmap. Qed.

(** X28.  However many reactions are listed, the list handler sends at most five
    statements of its own - the reactions statement and the four bulk
    statements - and the post handler at most three: the insert and the two
    lookups.  The statements of the hydration routines are not counted. *)
Theorem handlers_statement_bound (dbConn : DB) (c : Context) :
  (own_statements (trace (getReactions dbConn c)) ≤ 5)%nat
  ∧ (own_statements (trace (postReaction dbConn c)) ≤ 3)%nat.
Proof using Type.
  drop_unused.
  unfold trace. rewrite getReactionsHandler_run, postReactionHandler_run. cbv zeta.
  split; repeat case_match; use_events; cbn [snd app];
    rewrite ?own_statements_cons, ?own_statements_app, ?own_statements_fmap,
      ?own_statements_cons; cbn; lia.
Qed.

End Outcomes.

(** ** The further properties on the store in memory *)

Lemma user_responses_keys_witness :
  value (Demo.fillUserResponses Demo.tx [5; 6]) = Ok Demo.both_users
  ∧ ∀ k, is_Some (Demo.both_users !! k) ↔ k ∈ [5; 6].
Proof.
  assert (Hrun : value (Demo.fillUserResponses Demo.tx [5; 6]) = Ok Demo.both_users)
    by reflexivity.
  split; [exact Hrun|].
  exact (user_responses_keys Demo.fallbackImageHash Demo.tx [5; 6] Demo.both_users Hrun).
Defined.

Lemma missing_rows_give_zero_values_witness :
  value (Demo.fillUserResponses Demo.tx [0; 5]) = Ok Scenarios.users_with_zero
  ∧ 0 ∈ [0; 5]
  ∧ (∀ userModels row,
       tx_selectUsersIn Demo.tx [0; 5] = inr userModels →
       row ∈ userModels → UserModel_ID row ≠ 0)
  ∧ (∀ themeModels row,
       tx_selectThemesIn Demo.tx [0; 5] = inr themeModels →
       row ∈ themeModels → ThemeModel_UserID row ≠ 0)
  ∧ ∃ u, Scenarios.users_with_zero !! 0 = Some u
       ∧ User_ID u = 0 ∧ User_Name u = "" ∧ User_DisplayName u = ""
       ∧ User_Description u = "" ∧ User_Theme u = zeroTheme.
Proof.
  assert (Hrun : value (Demo.fillUserResponses Demo.tx [0; 5])
                 = Ok Scenarios.users_with_zero) by reflexivity.
  assert (Hin : 0 ∈ [0; 5]) by apply list_elem_of_here.
  assert (Husers : ∀ userModels row,
            tx_selectUsersIn Demo.tx [0; 5] = inr userModels →
            row ∈ userModels → UserModel_ID row ≠ 0).
  { intros userModels row [= <-] Hrow%list_elem_of_singleton. by subst row. }
  assert (Hthemes : ∀ themeModels row,
            tx_selectThemesIn Demo.tx [0; 5] = inr themeModels →
            row ∈ themeModels → ThemeModel_UserID row ≠ 0).
  { intros themeModels row [= <-] Hrow%list_elem_of_singleton. by subst row. }
  repeat (split; [assumption|]).
  exact (missing_rows_give_zero_values Demo.fallbackImageHash Demo.tx [0; 5]
           Scenarios.users_with_zero 0 Hrun Hin Husers Hthemes).
Defined.


Lemma user_statements_stop_at_first_failure_witness :
  [5] ≠ []
  ∧ tx_selectUsersIn Scenarios.tx_themes_down [5]
    = inr [mkUserModel 5 "alice" "Alice" "streams"]
  ∧ tx_selectThemesIn Scenarios.tx_themes_down [5] = inl (ErrDriver "invalid connection")
  ∧ run (Demo.fillUserResponses Scenarios.tx_themes_down [5])
    = (Err (ErrDriver "invalid connection"),
       [EvQuery (SelectUsersIn [5]); EvQuery (SelectThemesIn [5])]).
Proof.
  assert (Hne : [5] ≠ []) by discriminate.
  split; [exact Hne|]. split; [reflexivity|]. split; [reflexivity|].
  destruct (user_statements_stop_at_first_failure Demo.fallbackImageHash
              Scenarios.tx_themes_down [5] (ErrDriver "invalid connection") Hne)
    as (_ & Hthemes & _).
  exact (Hthemes [mkUserModel 5 "alice" "Alice" "streams"] eq_refl eq_refl).
Defined.


Lemma batch_succeeds_iff_witness :
  Demo.reactions Demo.store ≠ []
  ∧ value (Demo.fillReactionResponses Demo.tx (Demo.reactions Demo.store))
    = Ok Scenarios.store_out
  ∧ ∃ userModels themeModels iconHashes livestreamModels livestreamResps,
      tx_selectUsersIn Demo.tx
        (collect_ids ReactionModel_UserID (Demo.reactions Demo.store)) = inr userModels
      ∧ tx_selectThemesIn Demo.tx
          (collect_ids ReactionModel_UserID (Demo.reactions Demo.store)) = inr themeModels
      ∧ tx_selectIconHashesIn Demo.tx
          (collect_ids ReactionModel_UserID (Demo.reactions Demo.store)) = inr iconHashes
      ∧ tx_selectLivestreamsIn Demo.tx
          (collect_ids ReactionModel_LivestreamID (Demo.reactions Demo.store))
        = inr livestreamModels
      ∧ snd (Demo.fillLivestreamResponses Demo.tx livestreamModels) = inr livestreamResps
      ∧ Scenarios.store_out
        = map (reaction_response Demo.zeroStream
                 (user_responses Demo.fallbackImageHash userModels themeModels iconHashes
                    (collect_ids ReactionModel_UserID (Demo.reactions Demo.store)))
                 (index_by Demo.Stream_ID id livestreamResps))
            (Demo.reactions Demo.store).
Proof.
  assert (Hne : Demo.reactions Demo.store ≠ []) by discriminate.
  assert (Hrun : value (Demo.fillReactionResponses Demo.tx (Demo.reactions Demo.store))
                 = Ok Scenarios.store_out) by (vm_compute; reflexivity).
  split; [exact Hne|]. split; [exact Hrun|].
  exact (proj1 (batch_succeeds_iff Demo.Stream_ID Demo.zeroStream Demo.fallbackImageHash
                  Demo.fillLivestreamResponses Demo.tx (Demo.reactions Demo.store)
                  Scenarios.store_out Hne) Hrun).
Defined.

Lemma same_key_same_response_witness :
  ∃ ri rj oi oj,
    value (Demo.fillReactionResponses Demo.tx (Demo.reactions Demo.store))
    = Ok Scenarios.store_out
    ∧ Demo.reactions Demo.store !! 0%nat = Some ri
    ∧ Demo.reactions Demo.store !! 2%nat = Some rj
    ∧ Scenarios.store_out !! 0%nat = Some oi
    ∧ Scenarios.store_out !! 2%nat = Some oj
    ∧ ReactionModel_UserID ri = ReactionModel_UserID rj
    ∧ Reaction_User oi = Reaction_User oj.
Proof.
  assert (Hrun : value (Demo.fillReactionResponses Demo.tx (Demo.reactions Demo.store))
                 = Ok Scenarios.store_out) by (vm_compute; reflexivity).
  eexists _, _, _, _. split; [exact Hrun|].
  split; [reflexivity|]. split; [reflexivity|]. split; [reflexivity|].
  split; [reflexivity|]. split; [reflexivity|].
  exact (proj1 (same_key_same_response Demo.Stream_ID Demo.zeroStream Demo.fallbackImageHash
                  Demo.fillLivestreamResponses Demo.tx (Demo.reactions Demo.store)
                  Scenarios.store_out 0 2 _ _ _ _ Hrun eq_refl eq_refl eq_refl eq_refl)
           eq_refl).
Defined.

Lemma missing_livestream_gives_zero_value_witness :
  ∃ o,
    value (Demo.fillReactionResponses Demo.tx Scenarios.orphan) = Ok Scenarios.orphan_out
    ∧ Scenarios.orphan !! 0%nat = Some (mkReactionModel 9 ":eyes:" 5 99 200)
    ∧ Scenarios.orphan_out !! 0%nat = Some o
    ∧ (∀ livestreamModels livestreamResps l,
         tx_selectLivestreamsIn Demo.tx
           (collect_ids ReactionModel_LivestreamID Scenarios.orphan) = inr livestreamModels →
         snd (Demo.fillLivestreamResponses Demo.tx livestreamModels) = inr livestreamResps →
         l ∈ livestreamResps → Demo.Stream_ID l ≠ 99)
    ∧ Reaction_Livestream o = Demo.zeroStream.
Proof.
  assert (Hrun : value (Demo.fillReactionResponses Demo.tx Scenarios.orphan)
                 = Ok Scenarios.orphan_out) by (vm_compute; reflexivity).
  assert (Hmissing : ∀ livestreamModels livestreamResps l,
            tx_selectLivestreamsIn Demo.tx
              (collect_ids ReactionModel_LivestreamID Scenarios.orphan)
            = inr livestreamModels →
            snd (Demo.fillLivestreamResponses Demo.tx livestreamModels)
            = inr livestreamResps →
            l ∈ livestreamResps → Demo.Stream_ID l ≠ 99).
  { intros lms lrs l [= <-] [= <-] Hl. by apply elem_of_nil in Hl. }
  eexists. split; [exact Hrun|]. split; [reflexivity|]. split; [reflexivity|].
  split; [exact Hmissing|].
  exact (missing_livestream_gives_zero_value Demo.Stream_ID Demo.zeroStream
           Demo.fallbackImageHash Demo.fillLivestreamResponses Demo.tx Scenarios.orphan
           Scenarios.orphan_out 0 (mkReactionModel 9 ":eyes:" 5 99 200) _
           Hrun eq_refl eq_refl Hmissing).
Defined.

Lemma begin_failure_witness :
  Atoi (Param_livestream_id (Demo.request "7" "" (Some 5) Demo.tada)) = Some 7
  ∧ Demo.verifyUserSession (Demo.request "7" "" (Some 5) Demo.tada) = None
  ∧ db_begin Scenarios.dbConn_down = inl (ErrDriver "connection refused")
  ∧ run (Demo.getReactionsHandler Scenarios.dbConn_down
           (Demo.request "7" "" (Some 5) Demo.tada))
    = (Err (HTTPError StatusInternalServerError
              ("failed to begin transaction: " +:+ Error (ErrDriver "connection refused"))),
       [EvBegin false])
  ∧ run (Demo.postReactionHandler Scenarios.dbConn_down
           (Demo.request "7" "" (Some 5) Demo.tada))
    = (Err (HTTPError StatusInternalServerError
              ("failed to begin transaction: " +:+ Error (ErrDriver "connection refused"))),
       [EvBegin false]).
Proof.
  do 3 (split; [reflexivity|]).
  destruct (begin_failure Demo.Stream_ID Demo.zeroStream Demo.fallbackImageHash
              Demo.verifyUserSession Demo.fillUserResponse Demo.fillLivestreamResponse
              Demo.fillLivestreamResponses Scenarios.dbConn_down
              (Demo.request "7" "" (Some 5) Demo.tada) 7 (ErrDriver "connection refused")
              eq_refl eq_refl eq_refl) as [Hget Hpost].
  split; [exact Hget|].
  exact (Hpost 5 (Some (mkPostReactionRequest ":tada:")) eq_refl eq_refl).
Defined.


Lemma post_panics_witness :
  value (Demo.postReactionHandler Demo.dbConn (Demo.request "7" "" (Some 5) (Some JNull)))
  = Panic "runtime error: invalid memory address or nil pointer dereference"
  ∧ Demo.verifyUserSession (Demo.request "7" "" (Some 5) (Some JNull)) = None
  ∧ (Session_user_id (Demo.request "7" "" (Some 5) (Some JNull)) = None
     ∨ Decode (Body (Demo.request "7" "" (Some 5) (Some JNull))) = inr None).
Proof.
  split; [reflexivity|].
  exact (post_panics Demo.verifyUserSession Demo.fillUserResponse Demo.fillLivestreamResponse
           Demo.dbConn (Demo.request "7" "" (Some 5) (Some JNull)) _ eq_refl).
Defined.

Lemma get_empty_list_witness :
  Demo.verifyUserSession (Demo.request "9" "" (Some 5) None) = None
  ∧ Atoi (Param_livestream_id (Demo.request "9" "" (Some 5) None)) = Some 9
  ∧ db_begin Demo.dbConn = inr Demo.tx
  ∧ limit_argument (requested_limit (Demo.request "9" "" (Some 5) None)) = Some None
  ∧ tx_selectReactions Demo.tx 9 None = inr []
  ∧ tx_commit Demo.tx = None
  ∧ run (Demo.getReactionsHandler Demo.dbConn (Demo.request "9" "" (Some 5) None))
    = (Ok (JSON StatusOK (Reactions [])),
       [EvBegin true; EvQuery (SelectReactions 9 None); EvCommit true; EvRollback]).
Proof.
  repeat (split; [reflexivity|]).
  exact (get_empty_list Demo.Stream_ID Demo.zeroStream Demo.fallbackImageHash
           Demo.verifyUserSession Demo.fillLivestreamResponses Demo.dbConn
           (Demo.request "9" "" (Some 5) None) Demo.tx 9 None
           eq_refl eq_refl eq_refl eq_refl eq_refl eq_refl).
Defined.

Lemma get_response_mirrors_rows_witness :
  value (Demo.getReactionsHandler Demo.dbConn (Demo.request "7" "" (Some 5) None))
  = Ok Scenarios.listed
  ∧ ∃ tx livestreamID limit reactionModels reactions,
      db_begin Demo.dbConn = inr tx
      ∧ Atoi (Param_livestream_id (Demo.request "7" "" (Some 5) None)) = Some livestreamID
      ∧ limit_argument (requested_limit (Demo.request "7" "" (Some 5) None)) = Some limit
      ∧ tx_selectReactions tx livestreamID limit = inr reactionModels
      ∧ Scenarios.listed = JSON StatusOK (Reactions reactions)
      ∧ map Reaction_ID reactions = map ReactionModel_ID reactionModels
      ∧ map Reaction_EmojiName reactions = map ReactionModel_EmojiName reactionModels
      ∧ map Reaction_CreatedAt reactions = map ReactionModel_CreatedAt reactionModels.
Proof.
  assert (Hrun : value (Demo.getReactionsHandler Demo.dbConn
                          (Demo.request "7" "" (Some 5) None)) = Ok Scenarios.listed)
    by (vm_compute; reflexivity).
  split; [exact Hrun|].
  exact (get_response_mirrors_rows Demo.Stream_ID Demo.zeroStream Demo.fallbackImageHash
           Demo.verifyUserSession Demo.fillLivestreamResponses Demo.dbConn
           (Demo.request "7" "" (Some 5) None) Scenarios.listed Hrun).
Defined.

Lemma get_limit_forwarded_witness :
  Demo.verifyUserSession (Demo.request "7" "-1" (Some 5) None) = None
  ∧ Atoi (Param_livestream_id (Demo.request "7" "-1" (Some 5) None)) = Some 7
  ∧ db_begin Demo.dbConn = inr Demo.tx
  ∧ limit_argument (requested_limit (Demo.request "7" "-1" (Some 5) None)) = Some (Some (-1))
  ∧ head (queries (trace (Demo.getReactionsHandler Demo.dbConn
                            (Demo.request "7" "-1" (Some 5) None))))
    = Some (SelectReactions 7 (Some (-1))).
Proof.
  repeat (split; [reflexivity|]).
  exact (get_limit_forwarded Demo.Stream_ID Demo.zeroStream Demo.fallbackImageHash
           Demo.verifyUserSession Demo.fillLivestreamResponses Demo.dbConn
           (Demo.request "7" "-1" (Some 5) None) Demo.tx 7 (Some (-1))
           eq_refl eq_refl eq_refl eq_refl).
Defined.

Lemma post_created_witness :
  value (Demo.postReactionHandler Demo.dbConn (Demo.request "7" "" (Some 5) Demo.tada))
  = Ok Scenarios.created
  ∧ ∃ tx livestreamID userID req reactionID reaction,
      db_begin Demo.dbConn = inr tx
      ∧ Atoi (Param_livestream_id (Demo.request "7" "" (Some 5) Demo.tada))
        = Some livestreamID
      ∧ Session_user_id (Demo.request "7" "" (Some 5) Demo.tada) = Some userID
      ∧ Decode (Body (Demo.request "7" "" (Some 5) Demo.tada)) = inr (Some req)
      ∧ tx_insertReaction tx
          (mkReactionModel 0 (PostReactionRequest_EmojiName req) userID livestreamID
             (Now (Demo.request "7" "" (Some 5) Demo.tada)))
        = inr (inr reactionID)
      ∧ value (fillReactionResponse Demo.fillUserResponse Demo.fillLivestreamResponse tx
                 (mkReactionModel reactionID (PostReactionRequest_EmojiName req)
                    userID livestreamID (Now (Demo.request "7" "" (Some 5) Demo.tada))))
        = Ok reaction
      ∧ Scenarios.created = JSON StatusCreated (OneReaction reaction)
      ∧ Reaction_ID reaction = reactionID
      ∧ Reaction_EmojiName reaction = PostReactionRequest_EmojiName req
      ∧ Reaction_CreatedAt reaction = Now (Demo.request "7" "" (Some 5) Demo.tada).
Proof.
  assert (Hrun : value (Demo.postReactionHandler Demo.dbConn
                          (Demo.request "7" "" (Some 5) Demo.tada)) = Ok Scenarios.created)
    by (vm_compute; reflexivity).
  split; [exact Hrun|].
  exact (post_created Demo.verifyUserSession Demo.fillUserResponse
           Demo.fillLivestreamResponse Demo.dbConn
           (Demo.request "7" "" (Some 5) Demo.tada) Scenarios.created Hrun).
Defined.

Lemma post_inserted_row_witness :
  InsertReaction (mkReactionModel 0 ":tada:" 5 7 1700000000)
    ∈ queries (trace (Demo.postReactionHandler Demo.dbConn
                        (Demo.request "7" "" (Some 5) Demo.tada)))
  ∧ ∃ livestreamID userID req,
      Atoi (Param_livestream_id (Demo.request "7" "" (Some 5) Demo.tada)) = Some livestreamID
      ∧ Session_user_id (Demo.request "7" "" (Some 5) Demo.tada) = Some userID
      ∧ Decode (Body (Demo.request "7" "" (Some 5) Demo.tada)) = inr (Some req)
      ∧ mkReactionModel 0 ":tada:" 5 7 1700000000
        = mkReactionModel 0 (PostReactionRequest_EmojiName req) userID livestreamID
            (Now (Demo.request "7" "" (Some 5) Demo.tada)).
Proof.
  assert (Hin : InsertReaction (mkReactionModel 0 ":tada:" 5 7 1700000000)
            ∈ queries (trace (Demo.postReactionHandler Demo.dbConn
                                (Demo.request "7" "" (Some 5) Demo.tada))))
    by (vm_compute; apply list_elem_of_here).
  split; [exact Hin|].
  exact (post_inserted_row Demo.verifyUserSession Demo.fillUserResponse
           Demo.fillLivestreamResponse Demo.dbConn
           (Demo.request "7" "" (Some 5) Demo.tada) _ Hin).
Defined.

Lemma post_insert_failure_witness :
  Atoi (Param_livestream_id (Demo.request "7" "" (Some 5) Demo.tada)) = Some 7
  ∧ Demo.verifyUserSession (Demo.request "7" "" (Some 5) Demo.tada) = None
  ∧ Session_user_id (Demo.request "7" "" (Some 5) Demo.tada) = Some 5
  ∧ Decode (Body (Demo.request "7" "" (Some 5) Demo.tada))
    = inr (Some (mkPostReactionRequest ":tada:"))
  ∧ db_begin Scenarios.dbConn_insert_down
    = inr (Demo.tx_of Demo.store Scenarios.insert_down None)
  ∧ tx_insertReaction (Demo.tx_of Demo.store Scenarios.insert_down None)
      (mkReactionModel 0 ":tada:" 5 7 1700000000)
    = inl (ErrDriver "Error 1452: foreign key constraint fails")
  ∧ run (Demo.postReactionHandler Scenarios.dbConn_insert_down
           (Demo.request "7" "" (Some 5) Demo.tada))
    = (Err (HTTPError StatusInternalServerError
              ("failed to insert reaction: "
               +:+ Error (ErrDriver "Error 1452: foreign key constraint fails"))),
       [EvBegin true; EvQuery (InsertReaction (mkReactionModel 0 ":tada:" 5 7 1700000000));
        EvRollback]).
Proof.
  repeat (split; [reflexivity|]).
  exact (proj1 (post_insert_failure Demo.verifyUserSession Demo.fillUserResponse
                  Demo.fillLivestreamResponse Scenarios.dbConn_insert_down
                  (Demo.request "7" "" (Some 5) Demo.tada)
                  (Demo.tx_of Demo.store Scenarios.insert_down None) 7 5
                  (mkPostReactionRequest ":tada:")
                  (ErrDriver "Error 1452: foreign key constraint fails")
                  eq_refl eq_refl eq_refl eq_refl eq_refl) eq_refl).
Defined.

Lemma post_emoji_verbatim_witness :
  Body (Demo.request "7" "" (Some 5) (Some (JObject [("emoji_name", JString "")])))
  = Some (JObject [("emoji_name", JString "")])
  ∧ Atoi (Param_livestream_id
            (Demo.request "7" "" (Some 5) (Some (JObject [("emoji_name", JString "")]))))
    = Some 7
  ∧ Demo.verifyUserSession
      (Demo.request "7" "" (Some 5) (Some (JObject [("emoji_name", JString "")]))) = None
  ∧ Session_user_id
      (Demo.request "7" "" (Some 5) (Some (JObject [("emoji_name", JString "")]))) = Some 5
  ∧ db_begin Demo.dbConn = inr Demo.tx
  ∧ head (queries (trace (Demo.postReactionHandler Demo.dbConn
                            (Demo.request "7" "" (Some 5)
                               (Some (JObject [("emoji_name", JString "")]))))))
    = Some (InsertReaction (mkReactionModel 0 "" 5 7 1700000000)).
Proof.
  repeat (split; [reflexivity|]).
  exact (post_emoji_verbatim Demo.verifyUserSession Demo.fillUserResponse
           Demo.fillLivestreamResponse Demo.dbConn
           (Demo.request "7" "" (Some 5) (Some (JObject [("emoji_name", JString "")])))
           Demo.tx 7 5 "" eq_refl eq_refl eq_refl eq_refl eq_refl).
Defined.
